(** * Jira ticket search component: model and verified properties

    A shallow embedding of
    [custom_components/jira_ticket_search/JiraTicketSearchComponent.py]
    (class [JiraSearchTicketComponent]).

    - Python [str] values are sequences of Unicode code points ([PyStr]).
    - Parsed JSON ([response.json()]) is the inductive type [json]; Python's
      [None] is [JNull].
    - HTTP traffic and logging are effects: every method that calls
      [requests.get] or [logger.warning] is a computation in the monad [M],
      which threads the trace of events and may raise a Python exception.
      The trace survives an exception, as the requests already sent are
      not undone by [raise]. *)

From Stdlib Require Import ZArith NArith String Ascii List Bool Lia DecimalString.
Import ListNotations.

Set Implicit Arguments.
Set Warnings "-register-all".

(** ** Python strings *)

Module PyStr.

(** A character is a Unicode code point. *)
Definition char := N.
Definition pystr := list char.

(** String literals of the source. *)
Definition lit (s : string) : pystr := map N_of_ascii (list_ascii_of_string s).

(** The double quote, U+0022. *)
Definition dquote : pystr := [34%N].

(** The line feed, [\n]. *)
Definition nl : pystr := [10%N].

Definition eqb (a b : pystr) : bool :=
  if list_eq_dec N.eq_dec a b then true else false.

(** [str.isspace] for one character: the code points CPython's
    [_PyUnicode_IsWhitespace] accepts. *)
Definition whitespace : list char :=
  [9; 10; 11; 12; 13; 28; 29; 30; 31; 32; 133; 160; 5760;
   8192; 8193; 8194; 8195; 8196; 8197; 8198; 8199; 8200; 8201; 8202;
   8232; 8233; 8239; 8287; 12288]%N.

Definition isspace (c : char) : bool := existsb (N.eqb c) whitespace.

Fixpoint lstrip (s : pystr) : pystr :=
  match s with
  | c :: s' => if isspace c then lstrip s' else s
  | [] => []
  end.

Definition rstrip (s : pystr) : pystr := rev (lstrip (rev s)).

(** [s.strip()] *)
Definition strip (s : pystr) : pystr := rstrip (lstrip s).

(** [sep.join(parts)] *)
Fixpoint join (sep : pystr) (parts : list pystr) : pystr :=
  match parts with
  | [] => []
  | [p] => p
  | p :: rest => p ++ sep ++ join sep rest
  end.

(** [str(n)] for an [int]. *)
Definition of_Z (n : Z) : pystr := lit (NilZero.string_of_int (Z.to_int n)).

Section Upper.

(** The full upper-case mapping of the Unicode character database for
    the code points above ASCII ([_PyUnicode_ToUpperFull]); one code
    point may map to several. *)
Variable unicode_upper : char -> pystr.

Definition ascii_upper (c : char) : char :=
  if ((97 <=? c) && (c <=? 122))%N then (c - 32)%N else c.

Definition upper_char (c : char) : pystr :=
  if (c <? 128)%N then [ascii_upper c] else unicode_upper c.

(** [s.upper()]: CPython maps each character on its own. *)
Definition upper (s : pystr) : pystr := flat_map upper_char s.

End Upper.

End PyStr.

Import PyStr.

(** ** JSON values *)

Inductive json : Type :=
| JNull
| JBool (b : bool)
| JInt (n : Z)
| JFloat (bits : Z)   (* an IEEE-754 binary64, by its bit pattern *)
| JStr (s : pystr)
| JArr (items : list json)
| JObj (members : list (pystr * json)).

(** Python exceptions: the class and [str(e)]. All classes below derive
    from [Exception]. *)
Inductive exn_class : Type :=
| ValueError | AttributeError | TypeError | KeyError
| RequestException | JSONDecodeError.

Record exn : Type := Exn { exn_cls : exn_class; exn_str : pystr }.

Inductive result (A : Type) : Type :=
| Ok (a : A)
| Raise (e : exn).
Arguments Ok {A} a.
Arguments Raise {A} e.

(** [type(v).__name__] *)
Definition type_name (v : json) : pystr :=
  match v with
  | JNull => lit "NoneType"
  | JBool _ => lit "bool"
  | JInt _ => lit "int"
  | JFloat _ => lit "float"
  | JStr _ => lit "str"
  | JArr _ => lit "list"
  | JObj _ => lit "dict"
  end.

(** [bool(v)] *)
Definition truthy (v : json) : bool :=
  match v with
  | JNull => false
  | JBool b => b
  | JInt n => negb (n =? 0)%Z
  | JFloat bits => negb ((bits =? 0)%Z || (bits =? 2 ^ 63)%Z)
  | JStr s => match s with [] => false | _ => true end
  | JArr l => match l with [] => false | _ => true end
  | JObj m => match m with [] => false | _ => true end
  end.

(** Lookup in a [dict] with [str] keys. *)
Fixpoint dict_lookup (m : list (pystr * json)) (k : pystr) : option json :=
  match m with
  | [] => None
  | (k', v) :: m' => if PyStr.eqb k' k then Some v else dict_lookup m' k
  end.

(** [v.get(k, default)]: defined on a [dict] only. *)
Definition py_get (v : json) (k : pystr) (default : json) : result json :=
  match v with
  | JObj m => Ok (match dict_lookup m k with Some x => x | None => default end)
  | _ => Raise (Exn AttributeError
                  (lit "'" ++ type_name v ++ lit "' object has no attribute 'get'"))
  end.

(** The keys of a [dict], each once, in order of first insertion. *)
Fixpoint dict_keys (m : list (pystr * json)) (seen : list pystr) : list pystr :=
  match m with
  | [] => []
  | (k, _) :: m' =>
      if existsb (PyStr.eqb k) seen then dict_keys m' seen
      else k :: dict_keys m' (k :: seen)
  end.

(** The items a [for] loop over [v] visits. *)
Definition py_iter (v : json) : result (list json) :=
  match v with
  | JArr l => Ok l
  | JStr s => Ok (map (fun c => JStr [c]) s)
  | JObj m => Ok (map JStr (dict_keys m []))
  | _ => Raise (Exn TypeError (lit "'" ++ type_name v ++ lit "' object is not iterable"))
  end.

(** ** Effects: errors, HTTP requests and log records *)

Class Monad (m : Type -> Type) : Type :=
  { ret : forall {A}, A -> m A;
    bind : forall {A B}, m A -> (A -> m B) -> m B }.

Notation "x <- c ;; k" := (bind c (fun x => k))
  (at level 61, c at next level, right associativity).

#[global] Instance result_monad : Monad result :=
  { ret := fun A a => Ok a;
    bind := fun A B c k => match c with Ok a => k a | Raise e => Raise e end }.

(** A [for] loop that appends one computed item per element. *)
Fixpoint mapM {m} `{Monad m} {A B} (f : A -> m B) (l : list A) : m (list B) :=
  match l with
  | [] => ret []
  | a :: l' => b <- f a ;; bs <- mapM f l' ;; ret (b :: bs)
  end.

(** The arguments of one [requests.get] call. *)
Record Request : Type :=
  { req_url : pystr;
    req_auth : pystr * pystr;
    req_headers : list (pystr * pystr);
    req_params : option (list (pystr * json)) }.

(** The body of a response as [json()] sees it: a JSON value, or text that
    does not parse, with the message of the decoder. *)
Inductive Decoded : Type :=
| Parsed (value : json)
| Malformed (message : pystr).

(** What the caller reads of a [requests.Response]. *)
Record Response : Type :=
  { status_code : Z;
    text : pystr;
    body : Decoded }.

(** [response.json()] *)
Definition response_json (response : Response) : result json :=
  match body response with
  | Parsed value => Ok value
  | Malformed message => Raise (Exn JSONDecodeError message)
  end.

Inductive Event : Type :=
| Sent (r : Request)          (* requests.get(...) *)
| Warning (message : pystr).  (* logger.warning(...) *)

Definition Trace := list Event.

Fixpoint requests_of (tr : Trace) : list Request :=
  match tr with
  | [] => []
  | Sent r :: tr' => r :: requests_of tr'
  | Warning _ :: tr' => requests_of tr'
  end.

(** The remote service: its answer to a request may depend on the requests
    it received before. [Raise] is [requests.get] itself failing. *)
Definition Server := list Request -> Request -> result Response.

(** An effectful computation, run against a server from a trace. *)
Definition M (A : Type) : Type := Server -> Trace -> result A * Trace.

#[global] Instance M_monad : Monad M :=
  { ret := fun A a => fun _ tr => (Ok a, tr);
    bind := fun A B c k => fun sv tr =>
      match c sv tr with
      | (Ok a, tr') => k a sv tr'
      | (Raise e, tr') => (Raise e, tr')
      end }.

Definition lift {A} (r : result A) : M A := fun _ tr => (r, tr).

Definition raise {A} (e : exn) : M A := lift (Raise e).

(** [try: body except Exception as e: handler(e)] *)
Definition try_except {A} (body : M A) (handler : exn -> M A) : M A :=
  fun sv tr =>
    match body sv tr with
    | (Ok a, tr') => (Ok a, tr')
    | (Raise e, tr') => handler e sv tr'
    end.

Definition requests_get (r : Request) : M Response :=
  fun sv tr => (sv (requests_of tr) r, tr ++ [Sent r]).

Definition logger_warning (message : pystr) : M unit :=
  fun _ tr => (Ok tt, tr ++ [Warning message]).

(** ** The component's data *)

(** The inputs of the component, as attributes of [self]. *)
Record Config : Type :=
  { jira_instance : pystr;
    api_token : pystr;
    username : pystr;
    search_type : pystr;
    max_results : Z;
    include_comments : bool;
    include_attachments : bool }.

(** The dict appended per comment in [_get_comments]. *)
Record Comment : Type :=
  { c_author : json; c_created : json; c_body : json }.

(** The dict appended per attachment in [_get_attachments]. *)
Record Attachment : Type :=
  { a_filename : json; a_size : json; a_created : json; a_url : json }.

(** [processed_ticket] of [_process_ticket]: the ten keys of the dict
    literal, and the two keys that are set only on request. *)
Record Ticket : Type :=
  { t_key : json;
    t_summary : json;
    t_description : json;
    t_status : json;
    t_priority : json;
    t_assignee : json;
    t_reporter : json;
    t_created : json;
    t_updated : json;
    t_url : pystr;
    t_comments : option (list Comment);
    t_attachments : option (list Attachment) }.

Record Tool : Type :=
  { name : pystr;
    description : pystr;
    func : pystr -> M pystr }.

(** ** The component [JiraSearchTicketComponent] *)

Section Component.

(** Three facts of the Python runtime the source relies on and does not
    define: the Unicode upper-case table, [repr] of a [float], [list] or
    [dict], and the exception of [d[:100]] on a [dict] ([TypeError] up to
    Python 3.11, [KeyError] from 3.12). *)
Variable unicode_upper : char -> pystr.
Variable py_repr : json -> pystr.
Variable dict_slice_error : exn.

(** [f"{v}"], that is [str(v)]. *)
Definition py_str (v : json) : pystr :=
  match v with
  | JNull => lit "None"
  | JBool true => lit "True"
  | JBool false => lit "False"
  | JInt n => of_Z n
  | JStr s => s
  | JFloat _ | JArr _ | JObj _ => py_repr v
  end.

(** [v[:100]] *)
Definition py_slice100 (v : json) : result json :=
  match v with
  | JStr s => Ok (JStr (firstn 100 s))
  | JArr l => Ok (JArr (firstn 100 l))
  | JObj _ => Raise dict_slice_error
  | _ => Raise (Exn TypeError
                  (lit "'" ++ type_name v ++ lit "' object is not subscriptable"))
  end.

Definition headers : list (pystr * pystr) :=
  [(lit "Accept", lit "application/json");
   (lit "Content-Type", lit "application/json")].

Definition _make_request (self : Config) (url : pystr)
    (params : option (list (pystr * json))) : M json :=
  response <- requests_get {| req_url := url;
                              req_auth := (username self, api_token self);
                              req_headers := headers;
                              req_params := params |} ;;
  if negb (status_code response =? 200)%Z then
    raise (Exn ValueError
             (lit "Jira API request failed: " ++ of_Z (status_code response)
                ++ lit " - " ++ text response))
  else
    lift (response_json response).

Definition _get_comments (self : Config) (ticket_key : json) : M (list Comment) :=
  if negb (include_comments self) then ret []
  else
    let url := jira_instance self ++ lit "/rest/api/2/issue/"
                 ++ py_str ticket_key ++ lit "/comment" in
    response <- _make_request self url None ;;
    lift (found <- py_get response (lit "comments") (JArr []) ;;
          items <- py_iter found ;;
          mapM (fun comment =>
                  author <- py_get comment (lit "author") (JObj []) ;;
                  displayName <- py_get author (lit "displayName") (JStr (lit "Unknown")) ;;
                  created <- py_get comment (lit "created") JNull ;;
                  body <- py_get comment (lit "body") JNull ;;
                  ret {| c_author := displayName; c_created := created; c_body := body |})
               items).

Definition _get_attachments (self : Config) (ticket_key : json) : M (list Attachment) :=
  if negb (include_attachments self) then ret []
  else
    let url := jira_instance self ++ lit "/rest/api/2/issue/" ++ py_str ticket_key in
    response <- _make_request self url None ;;
    lift (fields <- py_get response (lit "fields") (JObj []) ;;
          found <- py_get fields (lit "attachment") (JArr []) ;;
          items <- py_iter found ;;
          mapM (fun attachment =>
                  filename <- py_get attachment (lit "filename") JNull ;;
                  size <- py_get attachment (lit "size") JNull ;;
                  created <- py_get attachment (lit "created") JNull ;;
                  content <- py_get attachment (lit "content") JNull ;;
                  ret {| a_filename := filename; a_size := size;
                         a_created := created; a_url := content |})
               items).

(** [fields.get(who, {}).get("displayName") if fields.get(who) else sentinel] *)
Definition display_name_or (fields : json) (who sentinel : pystr) : result json :=
  cond <- py_get fields who JNull ;;
  if truthy cond then
    person <- py_get fields who (JObj []) ;;
    py_get person (lit "displayName") JNull
  else
    ret (JStr sentinel).

(** The dict literal of [_process_ticket], its values evaluated in order. *)
Definition ticket_fields (self : Config) (ticket : json) : result Ticket :=
  ticket_key <- py_get ticket (lit "key") JNull ;;
  fields <- py_get ticket (lit "fields") (JObj []) ;;
  summary <- py_get fields (lit "summary") JNull ;;
  description <- py_get fields (lit "description") JNull ;;
  status <- py_get fields (lit "status") (JObj []) ;;
  status_name <- py_get status (lit "name") JNull ;;
  priority <- py_get fields (lit "priority") (JObj []) ;;
  priority_name <- py_get priority (lit "name") JNull ;;
  assignee <- display_name_or fields (lit "assignee") (lit "Unassigned") ;;
  reporter <- display_name_or fields (lit "reporter") (lit "Unknown") ;;
  created <- py_get fields (lit "created") JNull ;;
  updated <- py_get fields (lit "updated") JNull ;;
  ret {| t_key := ticket_key;
         t_summary := summary;
         t_description := description;
         t_status := status_name;
         t_priority := priority_name;
         t_assignee := assignee;
         t_reporter := reporter;
         t_created := created;
         t_updated := updated;
         t_url := jira_instance self ++ lit "/browse/" ++ py_str ticket_key;
         t_comments := None;
         t_attachments := None |}.

Definition set_comments (t : Ticket) (cs : list Comment) : Ticket :=
  {| t_key := t_key t; t_summary := t_summary t; t_description := t_description t;
     t_status := t_status t; t_priority := t_priority t; t_assignee := t_assignee t;
     t_reporter := t_reporter t; t_created := t_created t; t_updated := t_updated t;
     t_url := t_url t; t_comments := Some cs; t_attachments := t_attachments t |}.

Definition set_attachments (t : Ticket) (ats : list Attachment) : Ticket :=
  {| t_key := t_key t; t_summary := t_summary t; t_description := t_description t;
     t_status := t_status t; t_priority := t_priority t; t_assignee := t_assignee t;
     t_reporter := t_reporter t; t_created := t_created t; t_updated := t_updated t;
     t_url := t_url t; t_comments := t_comments t; t_attachments := Some ats |}.

Definition _process_ticket (self : Config) (ticket : json) : M Ticket :=
  processed_ticket <- lift (ticket_fields self ticket) ;;
  processed_ticket <-
    (if include_comments self then
       cs <- _get_comments self (t_key processed_ticket) ;;
       ret (set_comments processed_ticket cs)
     else ret processed_ticket) ;;
  processed_ticket <-
    (if include_attachments self then
       ats <- _get_attachments self (t_key processed_ticket) ;;
       ret (set_attachments processed_ticket ats)
     else ret processed_ticket) ;;
  ret processed_ticket.

Definition _process_search_results (self : Config) (issues : json) : M (list Ticket) :=
  items <- lift (py_iter issues) ;;
  mapM (_process_ticket self) items.

Definition _search_by_jql (self : Config) (jql_query : pystr) : M (list Ticket) :=
  let url := jira_instance self ++ lit "/rest/api/2/search" in
  let params := [(lit "jql", JStr jql_query);
                 (lit "maxResults", JInt (max_results self))] in
  response <- _make_request self url (Some params) ;;
  issues <- lift (py_get response (lit "issues") (JArr [])) ;;
  _process_search_results self issues.

Definition _search_by_text (self : Config) (text : pystr) : M (list Ticket) :=
  let jql_query := lit "text ~ " ++ dquote ++ text ++ dquote in
  _search_by_jql self jql_query.

(** The [try] block of [_search_by_key], for the cleaned [key]. *)
Definition direct_lookup (self : Config) (key : pystr) : M (list Ticket) :=
  let url := jira_instance self ++ lit "/rest/api/2/issue/" ++ key in
  response <- _make_request self url None ;;
  t <- _process_ticket self response ;;
  ret [t].

(** The [except] block of [_search_by_key]. *)
Definition fallback_search (self : Config) (key : pystr) (e : exn) : M (list Ticket) :=
  _ <- logger_warning (lit "Direct ticket lookup failed: " ++ exn_str e) ;;
  let jql_query := lit "key = " ++ dquote ++ key ++ dquote in
  _search_by_jql self jql_query.

Definition _search_by_key (self : Config) (key : pystr) : M (list Ticket) :=
  let key := upper unicode_upper (strip key) in
  try_except (direct_lookup self key) (fallback_search self key).

Definition _search_by_specific_id (self : Config) (ticket_id : pystr) : M (list Ticket) :=
  let ticket_id := upper unicode_upper (strip ticket_id) in
  _search_by_key self ticket_id.

Definition _search_by_assignee (self : Config) (assignee : pystr) : M (list Ticket) :=
  let jql_query := lit "assignee = " ++ dquote ++ assignee ++ dquote in
  _search_by_jql self jql_query.

Definition _search_by_reporter (self : Config) (reporter : pystr) : M (list Ticket) :=
  let jql_query := lit "reporter = " ++ dquote ++ reporter ++ dquote in
  _search_by_jql self jql_query.

Definition _search_by_status (self : Config) (status : pystr) : M (list Ticket) :=
  let jql_query := lit "status = " ++ dquote ++ status ++ dquote in
  _search_by_jql self jql_query.

(** One line of the "Comments:" block. *)
Definition comment_line (comment : Comment) : result pystr :=
  body <- py_slice100 (c_body comment) ;;
  ret (lit "  - " ++ py_str (c_author comment) ++ lit " ("
         ++ py_str (c_created comment) ++ lit "): " ++ py_str body ++ lit "...").

(** One line of the "Attachments:" block. *)
Definition attachment_line (attachment : Attachment) : pystr :=
  lit "  - " ++ py_str (a_filename attachment) ++ lit " ("
    ++ py_str (a_size attachment) ++ lit " bytes)".

(** [ticket.get(key)] is true: the key is set and its list is not empty. *)
Definition present {A} (l : option (list A)) : bool :=
  match l with
  | Some (_ :: _) => true
  | _ => false
  end.

Definition items {A} (l : option (list A)) : list A :=
  match l with
  | Some xs => xs
  | None => []
  end.

(** The body of the loop over [results]: the text of one ticket. *)
Definition format_ticket (self : Config) (ticket : Ticket) : result pystr :=
  let ticket_info :=
    [lit "Key: " ++ py_str (t_key ticket);
     lit "Summary: " ++ py_str (t_summary ticket);
     lit "Status: " ++ py_str (t_status ticket);
     lit "Assignee: " ++ py_str (t_assignee ticket);
     lit "Reporter: " ++ py_str (t_reporter ticket);
     lit "URL: " ++ t_url ticket] in
  ticket_info <-
    (if include_comments self && present (t_comments ticket) then
       lines <- mapM comment_line (items (t_comments ticket)) ;;
       ret (ticket_info ++ [join nl (lit "Comments:" :: lines)])
     else ret ticket_info) ;;
  let ticket_info :=
    if include_attachments self && present (t_attachments ticket) then
      ticket_info
        ++ [join nl (lit "Attachments:"
                       :: map attachment_line (items (t_attachments ticket)))]
    else ticket_info in
  ret (join nl ticket_info).

Definition _format_search_results (self : Config) (results : list Ticket)
  : result pystr :=
  match results with
  | [] => ret (lit "No tickets found.")
  | _ =>
      formatted_results <- mapM (format_ticket self) results ;;
      ret (join (nl ++ nl) formatted_results)
  end.

(** [x in options] *)
Definition py_in (x : pystr) (options : list pystr) : bool :=
  existsb (PyStr.eqb x) options.

(** The [lambda input_str: ...] of each tool. *)
Definition tool_func (self : Config)
    (search : Config -> pystr -> M (list Ticket)) (input_str : pystr) : M pystr :=
  results <- search self (strip input_str) ;;
  lift (_format_search_results self results).

Definition build_tool (self : Config) : list Tool :=
  let tools := [] in
  let tools :=
    if py_in (search_type self) [lit "jql"; lit "all"] then
      tools ++ [{| name := lit "Jira_Search_JQL";
                   description := lit "Search Jira tickets using JQL (Jira Query Language). Input should be a valid JQL query string.";
                   func := tool_func self _search_by_jql |}]
    else tools in
  let tools :=
    if py_in (search_type self) [lit "text"; lit "all"] then
      tools ++ [{| name := lit "Jira_Search_Text";
                   description := lit "Search Jira tickets containing specific text. Input should be the text to search for.";
                   func := tool_func self _search_by_text |}]
    else tools in
  let tools :=
    if py_in (search_type self) [lit "key"; lit "all"] then
      tools ++ [{| name := lit "Jira_Search_Key";
                   description := lit "Search for a specific Jira ticket by its key (e.g., PROJECT-123).";
                   func := tool_func self _search_by_key |}]
    else tools in
  let tools :=
    if py_in (search_type self) [lit "specific_id"; lit "all"] then
      tools ++ [{| name := lit "Jira_Search_Specific_ID";
                   description := lit "Search for a specific Jira ticket by its ID (e.g., OAPI-10686).";
                   func := tool_func self _search_by_specific_id |}]
    else tools in
  let tools :=
    if py_in (search_type self) [lit "assignee"; lit "all"] then
      tools ++ [{| name := lit "Jira_Search_Assignee";
                   description := lit "Search Jira tickets assigned to a specific user. Input should be the username or email.";
                   func := tool_func self _search_by_assignee |}]
    else tools in
  let tools :=
    if py_in (search_type self) [lit "reporter"; lit "all"] then
      tools ++ [{| name := lit "Jira_Search_Reporter";
                   description := lit "Search Jira tickets reported by a specific user. Input should be the username or email.";
                   func := tool_func self _search_by_reporter |}]
    else tools in
  let tools :=
    if py_in (search_type self) [lit "status"; lit "all"] then
      tools ++ [{| name := lit "Jira_Search_Status";
                   description := lit "Search Jira tickets with a specific status. Input should be the status name (e.g., 'In Progress', 'Done').";
                   func := tool_func self _search_by_status |}]
    else tools in
  tools.

(** The options of the [search_type] dropdown. *)
Definition search_type_options : list pystr :=
  [lit "jql"; lit "text"; lit "key"; lit "specific_id";
   lit "assignee"; lit "reporter"; lit "status"; lit "all"].

(** *** Reading a trace *)

(** The request [_make_request] sends. *)
Definition request_for (self : Config) (url : pystr)
    (params : option (list (pystr * json))) : Request :=
  {| req_url := url;
     req_auth := (username self, api_token self);
     req_headers := headers;
     req_params := params |}.

(** The request of [_search_by_jql] for the expression [jql_query]. *)
Definition search_request (self : Config) (jql_query : pystr) : Request :=
  request_for self (jira_instance self ++ lit "/rest/api/2/search")
    (Some [(lit "jql", JStr jql_query); (lit "maxResults", JInt (max_results self))]).

(** The request of the direct lookup of [key]. *)
Definition lookup_request (self : Config) (key : pystr) : Request :=
  request_for self (jira_instance self ++ lit "/rest/api/2/issue/" ++ key) None.

(** The query expression a request carries, if it is a search call. *)
Definition jql_of (r : Request) : list json :=
  match req_params r with
  | Some params =>
      match dict_lookup params (lit "jql") with
      | Some q => [q]
      | None => []
      end
  | None => []
  end.

(** The query expressions of the search calls of a trace, in order. *)
Definition searches (tr : Trace) : list json := flat_map jql_of (requests_of tr).

(** A computation that sends no search call (it may send other requests);
    it only ever extends the trace. *)
Definition quiet {A} (c : M A) : Prop :=
  forall sv tr, exists evs, snd (c sv tr) = tr ++ evs /\ searches evs = [].

(** *** Reading a raw ticket record *)

(** [ticket["fields"][k]] of a raw record; [None] when the record has no
    such entry. *)
Definition raw_field (ticket : json) (k : pystr) : json :=
  match py_get ticket (lit "fields") (JObj []) with
  | Ok fields =>
      match py_get fields k JNull with
      | Ok v => v
      | Raise _ => JNull
      end
  | Raise _ => JNull
  end.

Definition is_dict (v : json) : bool :=
  match v with
  | JObj _ => true
  | _ => false
  end.

Definition entry_or (m : list (pystr * json)) (k : pystr) (default : json) : json :=
  match dict_lookup m k with
  | Some v => v
  | None => default
  end.

(** A record as the service documents it: an object whose [fields], when
    there, is an object; in it [status] and [priority], when there, are
    objects, and [assignee] and [reporter] are objects or empty. *)
Definition well_formed_ticket (ticket : json) : bool :=
  match ticket with
  | JObj m =>
      match entry_or m (lit "fields") (JObj []) with
      | JObj f =>
          is_dict (entry_or f (lit "status") (JObj []))
          && is_dict (entry_or f (lit "priority") (JObj []))
          && (negb (truthy (entry_or f (lit "assignee") JNull))
              || is_dict (entry_or f (lit "assignee") JNull))
          && (negb (truthy (entry_or f (lit "reporter") JNull))
              || is_dict (entry_or f (lit "reporter") JNull))
      | _ => false
      end
  | _ => false
  end.

(** *** The layout of a formatted ticket, as the specification words it *)

Definition is_text (v : json) : bool :=
  match v with
  | JStr _ => true
  | _ => false
  end.

Definition text_of (v : json) : pystr :=
  match v with
  | JStr s => s
  | _ => []
  end.

(** [  - <author> (<created>): <first 100 characters of body>...] *)
Definition spec_comment_line (c : Comment) : pystr :=
  lit "  - " ++ py_str (c_author c) ++ lit " (" ++ py_str (c_created c)
    ++ lit "): " ++ firstn 100 (text_of (c_body c)) ++ lit "...".

(** Key, Summary, Status, Assignee, Reporter, URL, each as [Label: value]. *)
Definition header_lines (t : Ticket) : list pystr :=
  [lit "Key: " ++ py_str (t_key t);
   lit "Summary: " ++ py_str (t_summary t);
   lit "Status: " ++ py_str (t_status t);
   lit "Assignee: " ++ py_str (t_assignee t);
   lit "Reporter: " ++ py_str (t_reporter t);
   lit "URL: " ++ t_url t].

(** The "Comments:" block of a ticket that has comments. *)
Definition comment_lines (t : Ticket) : list pystr :=
  if present (t_comments t) then
    [join nl (lit "Comments:" :: map spec_comment_line (items (t_comments t)))]
  else [].

(** The "Attachments:" block, if attachments were requested and present. *)
Definition attachment_lines (self : Config) (t : Ticket) : list pystr :=
  if include_attachments self && present (t_attachments t) then
    [join nl (lit "Attachments:" :: map attachment_line (items (t_attachments t)))]
  else [].

(** *** What cleaning a key relies on *)

(** No blank at the front of [s]. *)
Definition edge_ok (s : pystr) : bool :=
  match s with
  | [] => true
  | c :: _ => negb (isspace c)
  end.

(** Two facts of the Unicode upper-case table, as far as the source does
    not fix it: mapping a mapped character again changes nothing, and a
    character that is not a blank maps to at least one character, none of
    them a blank. *)
Definition upper_stable : Prop :=
  forall c, (128 <= c)%N -> upper unicode_upper (unicode_upper c) = unicode_upper c.

Definition upper_keeps_nonspace : Prop :=
  forall c, (128 <= c)%N -> isspace c = false ->
            unicode_upper c <> [] /\ Forall (fun d => isspace d = false) (unicode_upper c).

(** *** Concrete inputs *)

(** An upper-case table that leaves the characters above ASCII alone. *)
Definition ascii_only : char -> pystr := fun c => [c].

Definition plain_repr : json -> pystr := fun _ => lit "<object>".

Definition slice_error : exn := Exn TypeError (lit "unhashable type: 'slice'").

Definition demo : Config :=
  {| jira_instance := lit "https://jira.example.com";
     api_token := lit "secret";
     username := lit "bot@example.com";
     search_type := lit "all";
     max_results := 10;
     include_comments := false;
     include_attachments := false |}.

Definition demo_with_comments : Config :=
  {| jira_instance := lit "https://jira.example.com";
     api_token := lit "secret";
     username := lit "bot@example.com";
     search_type := lit "key";
     max_results := 10;
     include_comments := true;
     include_attachments := false |}.

(** A raw record of an unassigned ticket without a reporter. *)
Definition raw_proj_123 : json :=
  JObj [(lit "key", JStr (lit "PROJ-123"));
        (lit "fields",
         JObj [(lit "summary", JStr (lit "Login fails"));
               (lit "status", JObj [(lit "name", JStr (lit "Open"))]);
               (lit "priority", JObj [(lit "name", JStr (lit "High"))]);
               (lit "assignee", JNull)])].

Definition not_found : Response :=
  {| status_code := 404;
     text := lit "Issue does not exist";
     body := Malformed (lit "Expecting value") |}.

Definition found (value : json) : Response :=
  {| status_code := 200; text := lit "{...}"; body := Parsed value |}.

(** A service that knows no issue by its key but answers searches. *)
Definition search_only_server : Server :=
  fun _ r =>
    match req_params r with
    | Some _ => Ok (found (JObj [(lit "issues", JArr [raw_proj_123])]))
    | None => Ok not_found
    end.

(** A service that returns the ticket, then fails on the request for its
    comments, then finds nothing. *)
Definition flaky_server : Server :=
  fun history _ =>
    match history with
    | [] => Ok (found raw_proj_123)
    | [_] => Ok {| status_code := 500; text := lit "Internal error";
                   body := Malformed (lit "Expecting value") |}
    | _ => Ok (found (JObj [(lit "issues", JArr [])]))
    end.

(** A ticket with one comment whose body has 50 characters. *)
Definition commented_ticket : Ticket :=
  {| t_key := JStr (lit "PROJ-123");
     t_summary := JStr (lit "Login fails");
     t_description := JNull;
     t_status := JStr (lit "Open");
     t_priority := JStr (lit "High");
     t_assignee := JStr (lit "Unassigned");
     t_reporter := JStr (lit "Ann");
     t_created := JNull;
     t_updated := JNull;
     t_url := lit "https://jira.example.com/browse/PROJ-123";
     t_comments :=
       Some [{| c_author := JStr (lit "Ann");
                c_created := JStr (lit "2024-01-01");
                c_body := JStr (lit "01234567890123456789012345678901234567890123456789") |}];
     t_attachments := None |}.

(** *** What every request has in common *)

(** A request made with the configured credentials, the two JSON headers
    and a URL under the configured instance. *)
Definition signed (self : Config) (r : Request) : Prop :=
  req_auth r = (username self, api_token self)
  /\ req_headers r = headers
  /\ exists path, req_url r = jira_instance self ++ path.

(** A computation that only appends to the trace, and whose requests all
    satisfy [P]. *)
Definition sends_only (P : Request -> Prop) {A} (c : M A) : Prop :=
  forall sv tr, exists evs, snd (c sv tr) = tr ++ evs /\ Forall P (requests_of evs).

(** *** Counting requests *)

(** The requests [_process_ticket] makes for one ticket: one if comments
    are requested, one more if attachments are. *)
Definition enrichment_calls (self : Config) : nat :=
  (if include_comments self then 1 else 0) + (if include_attachments self then 1 else 0).

Definition sent (tr : Trace) : nat := length (requests_of tr).

(** *** Values the formatter can cut *)

(** [v[:100]] is defined: [v] is a [str] or a [list]. *)
Definition sliceable (v : json) : bool :=
  match v with
  | JStr _ | JArr _ => true
  | _ => false
  end.

(** Every character of [w] is a blank. *)
Definition blank (w : pystr) : Prop := Forall (fun c => isspace c = true) w.

(** *** Comments as the service returns them *)

(** The body of the loop of [_get_comments]: the dict appended for one
    item of the service's list. *)
Definition comment_of (comment : json) : result Comment :=
  author <- py_get comment (lit "author") (JObj []) ;;
  displayName <- py_get author (lit "displayName") (JStr (lit "Unknown")) ;;
  created <- py_get comment (lit "created") JNull ;;
  body <- py_get comment (lit "body") JNull ;;
  ret {| c_author := displayName; c_created := created; c_body := body |}.

(** An item the loop accepts: an object whose [author], when there, is an
    object. *)
Definition comment_shaped (item : json) : bool :=
  match item with
  | JObj m => is_dict (entry_or m (lit "author") (JObj []))
  | _ => false
  end.

(** [c] holds what [item] says: its [created] and [body], [None] when
    missing, and its author's [displayName], ["Unknown"] when the item has
    no author or the author no display name. *)
Definition flattened (item : json) (c : Comment) : Prop :=
  exists m,
    item = JObj m
    /\ c_created c = entry_or m (lit "created") JNull
    /\ c_body c = entry_or m (lit "body") JNull
    /\ forall a, entry_or m (lit "author") (JObj []) = JObj a ->
                 c_author c = entry_or a (lit "displayName") (JStr (lit "Unknown")).

(** *** Attachments as the service returns them *)

(** The body of the loop of [_get_attachments]. *)
Definition attachment_of (attachment : json) : result Attachment :=
  filename <- py_get attachment (lit "filename") JNull ;;
  size <- py_get attachment (lit "size") JNull ;;
  created <- py_get attachment (lit "created") JNull ;;
  content <- py_get attachment (lit "content") JNull ;;
  ret {| a_filename := filename; a_size := size;
         a_created := created; a_url := content |}.

(** [a] holds what [item] says; its URL is the item's [content]. *)
Definition listed (item : json) (a : Attachment) : Prop :=
  exists m,
    item = JObj m
    /\ a_filename a = entry_or m (lit "filename") JNull
    /\ a_size a = entry_or m (lit "size") JNull
    /\ a_created a = entry_or m (lit "created") JNull
    /\ a_url a = entry_or m (lit "content") JNull.

(** *** More concrete inputs *)

Definition demo_with_attachments : Config :=
  {| jira_instance := lit "https://jira.example.com";
     api_token := lit "secret";
     username := lit "bot@example.com";
     search_type := lit "key";
     max_results := 10;
     include_comments := false;
     include_attachments := true |}.

(** A record as the service sends it for a ticket without priority. *)
Definition raw_null_priority : json :=
  JObj [(lit "key", JStr (lit "PROJ-7"));
        (lit "fields",
         JObj [(lit "summary", JStr (lit "No priority"));
               (lit "priority", JNull)])].

(** Answers the first request with two issues, the later ones with one
    comment that has a body and no author. *)
Definition commenting_server : Server :=
  fun history _ =>
    match history with
    | [] => Ok (found (JObj [(lit "issues", JArr [raw_proj_123; raw_proj_123])]))
    | _ => Ok (found (JObj [(lit "comments",
                             JArr [JObj [(lit "body", JStr (lit "Works for me"))]])]))
    end.

(** Answers every request with a good and a malformed issue. *)
Definition mixed_server : Server :=
  fun _ _ => Ok (found (JObj [(lit "issues", JArr [raw_proj_123; raw_null_priority])])).

(** Answers every request with an empty object. *)
Definition empty_server : Server := fun _ _ => Ok (found (JObj [])).

(** Knows no issue by key and finds none. *)
Definition nothing_server : Server :=
  fun _ r =>
    match req_params r with
    | Some _ => Ok (found (JObj [(lit "issues", JArr [])]))
    | None => Ok not_found
    end.

(** Answers every request with the ticket [PROJ-123]. *)
Definition ticket_server : Server := fun _ _ => Ok (found raw_proj_123).

(** Answers every request with a ticket that has one attachment. *)
Definition attachment_server : Server :=
  fun _ _ =>
    Ok (found (JObj [(lit "key", JStr (lit "PROJ-123"));
                     (lit "fields",
                      JObj [(lit "attachment",
                             JArr [JObj [(lit "filename", JStr (lit "log.txt"));
                                         (lit "size", JInt 120);
                                         (lit "content",
                                          JStr (lit "https://jira.example.com/files/1"))]])])])).

(** *** Picking from a list *)

(** The elements of [xs] whose flag in [bs] is set. *)
Fixpoint select {A} (bs : list bool) (xs : list A) : list A :=
  match bs, xs with
  | b :: bs', x :: xs' => (if b then [x] else []) ++ select bs' xs'
  | _, _ => []
  end.

(** ** Properties *)

Lemma requests_of_app (a b : Trace) :
  requests_of (a ++ b) = requests_of a ++ requests_of b.
Proof.
  induction a as [|[r|m] a IH]; simpl; auto. now rewrite IH.
Qed.

Lemma searches_app (a b : Trace) : searches (a ++ b) = searches a ++ searches b.
Proof.
  unfold searches. now rewrite requests_of_app, flat_map_app.
Qed.

Lemma quiet_ret {A} (a : A) : quiet (ret a).
Proof. intros sv tr. exists []. simpl. now rewrite app_nil_r. Qed.

Lemma quiet_lift {A} (r : result A) : quiet (lift r).
Proof. intros sv tr. exists []. simpl. now rewrite app_nil_r. Qed.

Lemma quiet_bind {A B} (c : M A) (k : A -> M B) :
  quiet c -> (forall a, quiet (k a)) -> quiet (bind c k).
Proof.
  intros Hc Hk sv tr. simpl.
  destruct (Hc sv tr) as [evs [E S]].
  destruct (c sv tr) as [[a|e] tr1]; simpl in *; subst tr1.
  - destruct (Hk a sv (tr ++ evs)) as [evs' [E' S']].
    exists (evs ++ evs'). rewrite E', searches_app, S, S'. now rewrite app_assoc.
  - now exists evs.
Qed.

Lemma quiet_mapM {A B} (f : A -> M B) (l : list A) :
  (forall a, quiet (f a)) -> quiet (mapM f l).
Proof.
  intros Hf. induction l as [|a l IH]; simpl mapM.
  - apply quiet_ret.
  - apply quiet_bind; [apply Hf|]. intros b.
    apply quiet_bind; [apply IH|]. intros bs. apply quiet_ret.
Qed.

Lemma make_request_run (self : Config) url params sv tr :
  _make_request self url params sv tr
  = (match sv (requests_of tr) (request_for self url params) with
     | Ok response =>
         if negb (status_code response =? 200)%Z then
           Raise (Exn ValueError
                    (lit "Jira API request failed: " ++ of_Z (status_code response)
                       ++ lit " - " ++ text response))
         else response_json response
     | Raise e => Raise e
     end,
     tr ++ [Sent (request_for self url params)]).
Proof.
  unfold _make_request, request_for. simpl. unfold requests_get.
  destruct (sv (requests_of tr) _) as [response|e]; [|reflexivity].
  now destruct (negb (status_code response =? 200)%Z).
Qed.

Lemma quiet_make_request (self : Config) url : quiet (_make_request self url None).
Proof.
  intros sv tr. rewrite make_request_run. simpl. eexists. split; [reflexivity|reflexivity].
Qed.

Lemma quiet_get_comments (self : Config) k : quiet (_get_comments self k).
Proof.
  unfold _get_comments. destruct (negb (include_comments self)).
  - apply quiet_ret.
  - apply quiet_bind; [apply quiet_make_request|]. intros; apply quiet_lift.
Qed.

Lemma quiet_get_attachments (self : Config) k : quiet (_get_attachments self k).
Proof.
  unfold _get_attachments. destruct (negb (include_attachments self)).
  - apply quiet_ret.
  - apply quiet_bind; [apply quiet_make_request|]. intros; apply quiet_lift.
Qed.

Lemma quiet_process_ticket (self : Config) ticket : quiet (_process_ticket self ticket).
Proof.
  unfold _process_ticket.
  apply quiet_bind; [apply quiet_lift|]. intros t.
  apply quiet_bind.
  { destruct (include_comments self); [|apply quiet_ret].
    apply quiet_bind; [apply quiet_get_comments|]. intros; apply quiet_ret. }
  intros t'. apply quiet_bind; [|intros; apply quiet_ret].
  destruct (include_attachments self); [|apply quiet_ret].
  apply quiet_bind; [apply quiet_get_attachments|]. intros; apply quiet_ret.
Qed.

Lemma quiet_process_search_results (self : Config) issues :
  quiet (_process_search_results self issues).
Proof.
  unfold _process_search_results.
  apply quiet_bind; [apply quiet_lift|]. intros.
  apply quiet_mapM. apply quiet_process_ticket.
Qed.

(** *** What each search sends *)

Lemma search_by_jql_trace (self : Config) q sv tr :
  exists evs,
    snd (_search_by_jql self q sv tr) = tr ++ Sent (search_request self q) :: evs
    /\ searches evs = [].
Proof.
  unfold _search_by_jql. cbn [bind M_monad]. rewrite make_request_run.
  fold (search_request self q).
  destruct (match sv (requests_of tr) (search_request self q) with
            | Ok _ => _ | Raise e => _ end) as [response|e].
  - unfold lift at 1.
    destruct (py_get response (lit "issues") (JArr [])) as [issues|e].
    + destruct (quiet_process_search_results self issues sv
                  (tr ++ [Sent (search_request self q)])) as [evs [E S]].
      exists evs. rewrite E, <- app_assoc. now split.
    + exists []. simpl. now split.
  - exists []. simpl. now split.
Qed.

Lemma searches_search_request (self : Config) q :
  jql_of (search_request self q) = [JStr q].
Proof. reflexivity. Qed.

Lemma search_by_jql_searches (self : Config) q sv tr :
  searches (snd (_search_by_jql self q sv tr)) = searches tr ++ [JStr q].
Proof.
  destruct (search_by_jql_trace self q sv tr) as [evs [E S]].
  rewrite E, searches_app. f_equal.
  change (Sent (search_request self q) :: evs)
    with ([Sent (search_request self q)] ++ evs).
  rewrite searches_app, S, app_nil_r. reflexivity.
Qed.

Lemma direct_lookup_trace (self : Config) key sv tr :
  exists evs,
    snd (direct_lookup self key sv tr) = tr ++ Sent (lookup_request self key) :: evs
    /\ searches evs = [].
Proof.
  unfold direct_lookup. cbn [bind M_monad]. rewrite make_request_run.
  fold (lookup_request self key).
  destruct (match sv (requests_of tr) (lookup_request self key) with
            | Ok _ => _ | Raise e => _ end) as [response|e].
  - destruct (quiet_process_ticket self response sv
                (tr ++ [Sent (lookup_request self key)])) as [evs [E S]].
    destruct (_process_ticket self response sv _) as [[t|e] tr1];
      simpl in E; subst tr1; exists evs; simpl; rewrite <- app_assoc; now split.
  - exists []. simpl. now split.
Qed.

Lemma search_by_key_run (self : Config) s sv tr :
  _search_by_key self s sv tr
  = match direct_lookup self (upper unicode_upper (strip s)) sv tr with
    | (Ok ts, tr1) => (Ok ts, tr1)
    | (Raise e, tr1) =>
        _search_by_jql self
          (lit "key = " ++ dquote ++ upper unicode_upper (strip s) ++ dquote) sv
          (tr1 ++ [Warning (lit "Direct ticket lookup failed: " ++ exn_str e)])
    end.
Proof.
  unfold _search_by_key, try_except.
  destruct (direct_lookup self _ sv tr) as [[ts|e] tr1]; reflexivity.
Qed.

(** *** The HTTP helper *)

(** C5. When [requests.get] returns a response, [_make_request] raises the
    error that carries the status code and the raw response text if and
    only if the status is not 200; with status 200 its outcome is that of
    [response.json()], so a body that parses to [value] is returned as
    [value]. One request is sent either way. *)
Theorem make_request_contract (self : Config) url params sv tr response :
  sv (requests_of tr) (request_for self url params) = Ok response ->
  let outcome := fst (_make_request self url params sv tr) in
  let failure :=
    Exn ValueError
      (lit "Jira API request failed: " ++ of_Z (status_code response)
         ++ lit " - " ++ text response) in
  (outcome = Raise failure <-> status_code response <> 200%Z)
  /\ (status_code response = 200%Z -> outcome = response_json response)
  /\ (forall value,
        status_code response = 200%Z -> body response = Parsed value ->
        outcome = Ok value)
  /\ snd (_make_request self url params sv tr)
     = tr ++ [Sent (request_for self url params)].
Proof.
  intros Hsv outcome failure. subst outcome failure.
  rewrite make_request_run, Hsv. cbn [fst snd].
  destruct (Z.eqb_spec (status_code response) 200) as [E|NE]; cbn [negb].
  - repeat split; auto.
    + intros H. unfold response_json in H.
      destruct (body response); discriminate.
    + intros H. congruence.
    + intros value _ Hb. unfold response_json. now rewrite Hb.
  - repeat split; auto; intros; congruence.
Qed.

(** *** The query builder *)

Lemma tool_func_trace (self : Config) search input sv tr :
  snd (tool_func self search input sv tr) = snd (search self (strip input) sv tr).
Proof.
  unfold tool_func. cbn [bind M_monad].
  now destruct (search self (strip input) sv tr) as [[ts|e] tr1].
Qed.

(** C2. The text, assignee, reporter and status searches send exactly one
    search call each, and its query expression is the template with the
    input put between the double quotes as it is. The tool built on the
    text search strips its input before it calls the search. *)
Theorem query_templates (self : Config) (s : pystr) sv tr :
  searches (snd (_search_by_text self s sv tr))
    = searches tr ++ [JStr (lit "text ~ " ++ dquote ++ s ++ dquote)]
  /\ searches (snd (_search_by_assignee self s sv tr))
    = searches tr ++ [JStr (lit "assignee = " ++ dquote ++ s ++ dquote)]
  /\ searches (snd (_search_by_reporter self s sv tr))
    = searches tr ++ [JStr (lit "reporter = " ++ dquote ++ s ++ dquote)]
  /\ searches (snd (_search_by_status self s sv tr))
    = searches tr ++ [JStr (lit "status = " ++ dquote ++ s ++ dquote)]
  /\ searches (snd (tool_func self _search_by_text s sv tr))
    = searches tr ++ [JStr (lit "text ~ " ++ dquote ++ strip s ++ dquote)].
Proof.
  rewrite tool_func_trace.
  unfold _search_by_text, _search_by_assignee, _search_by_reporter, _search_by_status.
  repeat split; apply search_by_jql_searches.
Qed.

(** The expression of a text search on [foo], character by character. *)
Example text_search_foo :
  lit "text ~ " ++ dquote ++ lit "foo" ++ dquote
  = [116; 101; 120; 116; 32; 126; 32; 34; 102; 111; 111; 34]%N.
Proof. reflexivity. Qed.

(** *** Search by key *)

(** C3. [_search_by_key] strips and upper-cases its input first. The first
    request it sends is the direct lookup at the URL that ends in the
    cleaned key; when the [try] block raises, the one search call that
    follows carries [key = "<cleaned key>"], and when it succeeds no search
    call is sent. [proj-123], with or without blanks around it, is cleaned
    to [PROJ-123]. *)
Theorem search_by_key_cleans (self : Config) (s : pystr) sv tr :
  let key := upper unicode_upper (strip s) in
  (exists evs,
      snd (_search_by_key self s sv tr)
      = tr ++ Sent (request_for self
                      (jira_instance self ++ lit "/rest/api/2/issue/" ++ key) None)
             :: evs)
  /\ (forall e tr1,
        direct_lookup self key sv tr = (Raise e, tr1) ->
        searches (snd (_search_by_key self s sv tr))
        = searches tr ++ [JStr (lit "key = " ++ dquote ++ key ++ dquote)])
  /\ (forall ts tr1,
        direct_lookup self key sv tr = (Ok ts, tr1) ->
        searches (snd (_search_by_key self s sv tr)) = searches tr)
  /\ upper unicode_upper (strip (lit "proj-123")) = lit "PROJ-123"
  /\ upper unicode_upper (strip (lit "  proj-123 ")) = lit "PROJ-123".
Proof.
  intros key. rewrite search_by_key_run. fold key.
  destruct (direct_lookup_trace self key sv tr) as [evs [E S]].
  fold (lookup_request self key).
  destruct (direct_lookup self key sv tr) as [[ts|e] tr1] eqn:D;
    cbn [snd] in E; subst tr1.
  - repeat split; try reflexivity.
    + now exists evs.
    + intros; discriminate.
    + intros _ _ _. cbn [snd]. rewrite searches_app.
      change (Sent (lookup_request self key) :: evs)
        with ([Sent (lookup_request self key)] ++ evs).
      rewrite searches_app, S. cbn. now rewrite app_nil_r.
  - repeat split; try reflexivity.
    + destruct (search_by_jql_trace self (lit "key = " ++ dquote ++ key ++ dquote) sv
                  ((tr ++ Sent (lookup_request self key) :: evs)
                     ++ [Warning (lit "Direct ticket lookup failed: " ++ exn_str e)]))
        as [evs' [E' _]].
      rewrite E'. eexists. rewrite <- !app_assoc. cbn [app]. reflexivity.
    + intros _ _ _. rewrite search_by_jql_searches. f_equal.
      rewrite !searches_app.
      change (Sent (lookup_request self key) :: evs)
        with ([Sent (lookup_request self key)] ++ evs).
      rewrite searches_app, S. cbn. now rewrite !app_nil_r.
    + intros; discriminate.
Qed.

(** C4. When the direct lookup request of [_search_by_key] fails, the
    failure is logged and not raised: the outcome is that of the JQL search
    for [key = "<cleaned key>"], so an error reaches the caller only when
    that search raises it, and the trace gains exactly one search call. *)
Theorem lookup_failure_falls_back (self : Config) (s : pystr) sv tr e :
  let key := upper unicode_upper (strip s) in
  let url := jira_instance self ++ lit "/rest/api/2/issue/" ++ key in
  let jql_query := lit "key = " ++ dquote ++ key ++ dquote in
  let tr1 := tr ++ [Sent (request_for self url None);
                    Warning (lit "Direct ticket lookup failed: " ++ exn_str e)] in
  fst (_make_request self url None sv tr) = Raise e ->
  _search_by_key self s sv tr = _search_by_jql self jql_query sv tr1
  /\ (forall e', fst (_search_by_key self s sv tr) = Raise e' ->
                 fst (_search_by_jql self jql_query sv tr1) = Raise e')
  /\ (forall ts, fst (_search_by_jql self jql_query sv tr1) = Ok ts ->
                 fst (_search_by_key self s sv tr) = Ok ts)
  /\ searches (snd (_search_by_key self s sv tr)) = searches tr ++ [JStr jql_query].
Proof.
  intros key url jql_query tr1 Hfail.
  assert (Run : _search_by_key self s sv tr = _search_by_jql self jql_query sv tr1).
  { rewrite search_by_key_run. fold key. unfold direct_lookup. cbn [bind M_monad].
    fold url. rewrite make_request_run in *. cbn [fst] in Hfail. rewrite Hfail.
    subst tr1. rewrite <- app_assoc. reflexivity. }
  rewrite Run. repeat split; auto.
  rewrite search_by_jql_searches. f_equal. subst tr1.
  rewrite searches_app. cbn. now rewrite app_nil_r.
Qed.

(** A response with status 404 makes the direct lookup fail. *)
Lemma not_found_fails (self : Config) url sv tr response :
  sv (requests_of tr) (request_for self url None) = Ok response ->
  status_code response = 404%Z ->
  fst (_make_request self url None sv tr)
  = Raise (Exn ValueError
             (lit "Jira API request failed: 404 - " ++ text response)).
Proof.
  intros Hsv H404. rewrite make_request_run, Hsv, H404. reflexivity.
Qed.

Lemma process_ticket_run (self : Config) ticket sv tr :
  _process_ticket self ticket sv tr
  = match ticket_fields self ticket with
    | Raise e => (Raise e, tr)
    | Ok t =>
        match (if include_comments self then
                 match _get_comments self (t_key t) sv tr with
                 | (Ok cs, tr1) => (Ok (set_comments t cs), tr1)
                 | (Raise e, tr1) => (Raise e, tr1)
                 end
               else (Ok t, tr)) with
        | (Raise e, tr1) => (Raise e, tr1)
        | (Ok t1, tr1) =>
            if include_attachments self then
              match _get_attachments self (t_key t1) sv tr1 with
              | (Ok ats, tr2) => (Ok (set_attachments t1 ats), tr2)
              | (Raise e, tr2) => (Raise e, tr2)
              end
            else (Ok t1, tr1)
        end
    end.
Proof.
  unfold _process_ticket. cbn [bind M_monad]. unfold lift at 1.
  destruct (ticket_fields self ticket) as [t|e]; [|reflexivity].
  destruct (include_comments self).
  - destruct (_get_comments self (t_key t) sv tr) as [[cs|e] tr1]; [|reflexivity].
    cbn [ret M_monad]. destruct (include_attachments self); [|reflexivity].
    now destruct (_get_attachments self _ sv tr1) as [[ats|e] tr2].
  - cbn [ret M_monad]. destruct (include_attachments self); [|reflexivity].
    now destruct (_get_attachments self _ sv tr) as [[ats|e] tr2].
Qed.

(** C10. Whatever raises inside the [try] block of [_search_by_key] is
    logged and answered by the JQL search for [key = "<cleaned key>"]: the
    lookup request itself, the normalization of the ticket it returned, and
    the comment or attachment request made for that ticket. *)
Theorem fallback_on_any_direct_failure (self : Config) (s : pystr) sv tr :
  let key := upper unicode_upper (strip s) in
  let url := jira_instance self ++ lit "/rest/api/2/issue/" ++ key in
  let retry e tr' :=
    _search_by_jql self (lit "key = " ++ dquote ++ key ++ dquote) sv
      (tr' ++ [Warning (lit "Direct ticket lookup failed: " ++ exn_str e)]) in
  (forall e tr1,
      direct_lookup self key sv tr = (Raise e, tr1) ->
      _search_by_key self s sv tr = retry e tr1)
  /\ (forall e tr1,
        _make_request self url None sv tr = (Raise e, tr1) ->
        _search_by_key self s sv tr = retry e tr1)
  /\ (forall response e tr1,
        _make_request self url None sv tr = (Ok response, tr1) ->
        ticket_fields self response = Raise e ->
        _search_by_key self s sv tr = retry e tr1)
  /\ (forall response t e tr1 tr2,
        _make_request self url None sv tr = (Ok response, tr1) ->
        ticket_fields self response = Ok t ->
        include_comments self = true ->
        _get_comments self (t_key t) sv tr1 = (Raise e, tr2) ->
        _search_by_key self s sv tr = retry e tr2)
  /\ (forall response t e tr1 tr2 tr3,
        _make_request self url None sv tr = (Ok response, tr1) ->
        ticket_fields self response = Ok t ->
        (include_comments self = false /\ tr2 = tr1
         \/ include_comments self = true
            /\ exists cs, _get_comments self (t_key t) sv tr1 = (Ok cs, tr2)) ->
        include_attachments self = true ->
        _get_attachments self (t_key t) sv tr2 = (Raise e, tr3) ->
        _search_by_key self s sv tr = retry e tr3).
Proof.
  intros key url retry.
  assert (Any : forall e tr1,
             direct_lookup self key sv tr = (Raise e, tr1) ->
             _search_by_key self s sv tr = retry e tr1).
  { intros e tr1 D. rewrite search_by_key_run. fold key. now rewrite D. }
  split; [exact Any|].
  repeat split.
  - intros e tr1 R. apply Any. unfold direct_lookup. cbn [bind M_monad].
    fold url. now rewrite R.
  - intros response e tr1 R F. apply Any. unfold direct_lookup. cbn [bind M_monad].
    fold url. rewrite R, process_ticket_run, F. reflexivity.
  - intros response t e tr1 tr2 R F IC G. apply Any. unfold direct_lookup.
    cbn [bind M_monad]. fold url. rewrite R, process_ticket_run, F, IC, G. reflexivity.
  - intros response t e tr1 tr2 tr3 R F C IA G. apply Any. unfold direct_lookup.
    cbn [bind M_monad]. fold url. rewrite R, process_ticket_run, F, IA.
    destruct C as [[IC ->]|[IC [cs GC]]]; rewrite IC.
    + now rewrite G.
    + rewrite GC. cbn [t_key set_comments]. now rewrite G.
Qed.

(** *** The formatter *)

(** C7. Formatting no ticket at all gives the fixed message. *)
Theorem format_empty (self : Config) :
  _format_search_results self [] = Ok (lit "No tickets found.").
Proof. reflexivity. Qed.

(** *** The tool registry *)

Lemma in_cond_append {A} (b : bool) (tools : list A) (x t : A) :
  In t (if b then tools ++ [x] else tools) -> In t tools \/ t = x.
Proof.
  destruct b; auto. rewrite in_app_iff. simpl. intuition.
Qed.

Lemma NoDup_by_nodup (l : list pystr) :
  nodup (list_eq_dec N.eq_dec) l = l -> NoDup l.
Proof. intros <-. apply NoDup_nodup. Qed.

(** C8. With search type [all], [build_tool] registers seven tools, with
    seven different names, one for each other option of the dropdown and in
    the order of the options; with one of those seven options it registers
    the single tool of that option. Every tool it ever registers is named
    [Jira_Search_<Type>]. *)
Theorem build_tool_registry (self : Config) :
  (search_type self = lit "all" ->
   map name (build_tool self)
   = [lit "Jira_Search_JQL"; lit "Jira_Search_Text"; lit "Jira_Search_Key";
      lit "Jira_Search_Specific_ID"; lit "Jira_Search_Assignee";
      lit "Jira_Search_Reporter"; lit "Jira_Search_Status"]
   /\ map (fun t => func t) (build_tool self)
      = [tool_func self _search_by_jql; tool_func self _search_by_text;
         tool_func self _search_by_key; tool_func self _search_by_specific_id;
         tool_func self _search_by_assignee; tool_func self _search_by_reporter;
         tool_func self _search_by_status]
   /\ NoDup (map name (build_tool self))
   /\ length (build_tool self) = 7
   /\ length (build_tool self) = length (remove (list_eq_dec N.eq_dec) (lit "all")
                                           search_type_options))
  /\ (search_type self = lit "jql" ->
      map (fun t => (name t, func t)) (build_tool self)
      = [(lit "Jira_Search_JQL", tool_func self _search_by_jql)])
  /\ (search_type self = lit "text" ->
      map (fun t => (name t, func t)) (build_tool self)
      = [(lit "Jira_Search_Text", tool_func self _search_by_text)])
  /\ (search_type self = lit "key" ->
      map (fun t => (name t, func t)) (build_tool self)
      = [(lit "Jira_Search_Key", tool_func self _search_by_key)])
  /\ (search_type self = lit "specific_id" ->
      map (fun t => (name t, func t)) (build_tool self)
      = [(lit "Jira_Search_Specific_ID", tool_func self _search_by_specific_id)])
  /\ (search_type self = lit "assignee" ->
      map (fun t => (name t, func t)) (build_tool self)
      = [(lit "Jira_Search_Assignee", tool_func self _search_by_assignee)])
  /\ (search_type self = lit "reporter" ->
      map (fun t => (name t, func t)) (build_tool self)
      = [(lit "Jira_Search_Reporter", tool_func self _search_by_reporter)])
  /\ (search_type self = lit "status" ->
      map (fun t => (name t, func t)) (build_tool self)
      = [(lit "Jira_Search_Status", tool_func self _search_by_status)])
  /\ (forall t, In t (build_tool self) ->
                exists type, name t = lit "Jira_Search_" ++ type).
Proof.
  split; [|repeat split].
  - intros H.
    assert (Names : map name (build_tool self)
                    = [lit "Jira_Search_JQL"; lit "Jira_Search_Text";
                       lit "Jira_Search_Key"; lit "Jira_Search_Specific_ID";
                       lit "Jira_Search_Assignee"; lit "Jira_Search_Reporter";
                       lit "Jira_Search_Status"]).
    { unfold build_tool. rewrite H. reflexivity. }
    split; [exact Names|]. split; [unfold build_tool; rewrite H; reflexivity|].
    split; [rewrite Names; apply NoDup_by_nodup; reflexivity|].
    split; rewrite <- (length_map name), Names; reflexivity.
  - intros H. unfold build_tool. rewrite H. reflexivity.
  - intros H. unfold build_tool. rewrite H. reflexivity.
  - intros H. unfold build_tool. rewrite H. reflexivity.
  - intros H. unfold build_tool. rewrite H. reflexivity.
  - intros H. unfold build_tool. rewrite H. reflexivity.
  - intros H. unfold build_tool. rewrite H. reflexivity.
  - intros H. unfold build_tool. rewrite H. reflexivity.
  - intros t H. unfold build_tool in H.
    repeat (apply in_cond_append in H; destruct H as [H| ->]);
      [destruct H | eexists; reflexivity ..].
Qed.

(** *** The normalizer *)

Ltac bind_ok H :=
  repeat match type of H with
    | (match ?c with Ok _ => _ | Raise _ => _ end) = Ok _ =>
        let E := fresh "E" in destruct c eqn:E; [|discriminate H]
    end.

Lemma display_name_or_sentinel fields who sentinel v x :
  display_name_or fields who sentinel = Ok v ->
  py_get fields who JNull = Ok x ->
  truthy x = false ->
  v = JStr sentinel.
Proof.
  unfold display_name_or. cbn [bind ret result_monad].
  intros H G T. rewrite G, T in H. congruence.
Qed.

Lemma raw_field_get ticket fields k x :
  py_get ticket (lit "fields") (JObj []) = Ok fields ->
  py_get fields k JNull = Ok x ->
  raw_field ticket k = x.
Proof. unfold raw_field. now intros -> ->. Qed.

Lemma ticket_fields_ok (self : Config) ticket t :
  ticket_fields self ticket = Ok t ->
  py_get ticket (lit "key") JNull = Ok (t_key t)
  /\ t_url t = jira_instance self ++ lit "/browse/" ++ py_str (t_key t)
  /\ (truthy (raw_field ticket (lit "assignee")) = false ->
      t_assignee t = JStr (lit "Unassigned"))
  /\ (truthy (raw_field ticket (lit "reporter")) = false ->
      t_reporter t = JStr (lit "Unknown")).
Proof.
  unfold ticket_fields. cbn [bind ret result_monad]. intros H.
  bind_ok H. injection H as <-. cbn [t_key t_url t_assignee t_reporter].
  repeat split; auto.
  - intros T.
    destruct (py_get a0 (lit "assignee") JNull) as [x|e] eqn:G.
    + rewrite (raw_field_get _ _ E0 G) in T.
      exact (display_name_or_sentinel _ _ _ E7 G T).
    + unfold display_name_or in E7. cbn [bind result_monad] in E7.
      rewrite G in E7. discriminate.
  - intros T.
    destruct (py_get a0 (lit "reporter") JNull) as [x|e] eqn:G.
    + rewrite (raw_field_get _ _ E0 G) in T.
      exact (display_name_or_sentinel _ _ _ E8 G T).
    + unfold display_name_or in E8. cbn [bind result_monad] in E8.
      rewrite G in E8. discriminate.
Qed.

Lemma py_get_dict m k default :
  py_get (JObj m) k default = Ok (entry_or m k default).
Proof. reflexivity. Qed.

Lemma py_get_is_dict v k default :
  is_dict v = true -> exists x, py_get v k default = Ok x.
Proof. destruct v; try discriminate. intros _. eexists. apply py_get_dict. Qed.

Lemma display_name_or_total f who sentinel :
  negb (truthy (entry_or f who JNull)) || is_dict (entry_or f who JNull) = true ->
  exists v, display_name_or (JObj f) who sentinel = Ok v.
Proof.
  unfold display_name_or. rewrite !py_get_dict. cbn [bind ret result_monad].
  unfold entry_or. destruct (dict_lookup f who) as [x|].
  - destruct (truthy x); cbn [negb orb]; [|eauto].
    intros D. apply py_get_is_dict. exact D.
  - cbn [truthy]. eauto.
Qed.

Lemma ticket_fields_total (self : Config) ticket :
  well_formed_ticket ticket = true -> exists t, ticket_fields self ticket = Ok t.
Proof.
  destruct ticket as [| | | | | |m]; try discriminate.
  cbn [well_formed_ticket].
  destruct (entry_or m (lit "fields") (JObj [])) as [| | | | | |f] eqn:F;
    try discriminate.
  intros H. apply andb_prop in H as [H Hr]. apply andb_prop in H as [H Ha].
  apply andb_prop in H as [Hs Hp].
  unfold ticket_fields. rewrite !py_get_dict. cbn [bind ret result_monad].
  rewrite F, !py_get_dict. cbn [bind ret result_monad].
  destruct (py_get_is_dict _ (lit "name") JNull Hs) as [sn ->].
  destruct (py_get_is_dict _ (lit "name") JNull Hp) as [pn ->].
  destruct (display_name_or_total f (lit "assignee") (lit "Unassigned") Ha) as [a ->].
  destruct (display_name_or_total f (lit "reporter") (lit "Unknown") Hr) as [r ->].
  eauto.
Qed.

(** C1. Every ticket [_process_ticket] produces from a raw record has the
    record's key and the URL [{jira_instance}/browse/{key}]; when the
    record's assignee (reporter) entry is absent, null or otherwise empty,
    the ticket's assignee is ["Unassigned"] (its reporter ["Unknown"]). A
    record of the documented shape, with no comments or attachments
    requested, always produces a ticket, and no request is sent for it. *)
Theorem process_ticket_invariant (self : Config) (ticket : json) sv tr :
  (forall t tr',
      _process_ticket self ticket sv tr = (Ok t, tr') ->
      py_get ticket (lit "key") JNull = Ok (t_key t)
      /\ t_url t = jira_instance self ++ lit "/browse/" ++ py_str (t_key t)
      /\ (forall k, t_key t = JStr k ->
                    t_url t = jira_instance self ++ lit "/browse/" ++ k)
      /\ (truthy (raw_field ticket (lit "assignee")) = false ->
          t_assignee t = JStr (lit "Unassigned"))
      /\ (truthy (raw_field ticket (lit "reporter")) = false ->
          t_reporter t = JStr (lit "Unknown")))
  /\ (well_formed_ticket ticket = true ->
      include_comments self = false ->
      include_attachments self = false ->
      exists t, _process_ticket self ticket sv tr = (Ok t, tr)).
Proof.
  split.
  - intros t tr' H. rewrite process_ticket_run in H.
    destruct (ticket_fields self ticket) as [t0|e] eqn:F; [|discriminate].
    destruct (ticket_fields_ok self ticket F) as (K & U & A & R).
    assert (Same : t_key t = t_key t0 /\ t_url t = t_url t0
                   /\ t_assignee t = t_assignee t0 /\ t_reporter t = t_reporter t0).
    { destruct (include_comments self).
      - destruct (_get_comments self (t_key t0) sv tr) as [[cs|e] tr1];
          [|discriminate].
        destruct (include_attachments self).
        + destruct (_get_attachments self _ sv tr1) as [[ats|e] tr2];
            [|discriminate].
          injection H as <- _. repeat split.
        + injection H as <- _. repeat split.
      - destruct (include_attachments self).
        + destruct (_get_attachments self _ sv tr) as [[ats|e] tr2];
            [|discriminate].
          injection H as <- _. repeat split.
        + injection H as <- _. repeat split. }
    destruct Same as (-> & -> & -> & ->).
    repeat split; auto.
    intros k Hk. rewrite U, Hk. reflexivity.
  - intros W IC IA. destruct (ticket_fields_total self ticket W) as [t F].
    exists t. rewrite process_ticket_run, F, IC, IA. reflexivity.
Qed.

(** An assignee object that carries no [displayName] is neither absent nor
    empty: the ticket's assignee is then [None]. *)
Example assignee_without_display_name (self : Config) sv tr :
  let ticket :=
    JObj [(lit "key", JStr (lit "A-1"));
          (lit "fields", JObj [(lit "assignee",
                                JObj [(lit "accountId", JStr (lit "42"))])])] in
  include_comments self = false ->
  include_attachments self = false ->
  exists t, _process_ticket self ticket sv tr = (Ok t, tr) /\ t_assignee t = JNull.
Proof.
  intros ticket IC IA. rewrite process_ticket_run, IC, IA.
  eexists. split; reflexivity.
Qed.

(** *** Comments in the formatted text *)

Lemma comment_line_text (c : Comment) :
  is_text (c_body c) = true -> comment_line c = Ok (spec_comment_line c).
Proof.
  unfold comment_line, spec_comment_line.
  destruct (c_body c); try discriminate. reflexivity.
Qed.

Lemma comment_lines_text (cs : list Comment) :
  (forall c, In c cs -> is_text (c_body c) = true) ->
  mapM comment_line cs = Ok (map spec_comment_line cs).
Proof.
  induction cs as [|c cs IH]; intros H; [reflexivity|].
  cbn [mapM map bind ret result_monad].
  rewrite comment_line_text by (apply H; now left).
  rewrite IH by (intros c' Hc'; apply H; now right). reflexivity.
Qed.

Lemma format_ticket_text (self : Config) (t : Ticket) :
  include_comments self = true ->
  (forall c, In c (items (t_comments t)) -> is_text (c_body c) = true) ->
  format_ticket self t
  = Ok (join nl (header_lines t ++ comment_lines t ++ attachment_lines self t)).
Proof.
  intros IC H. unfold format_ticket, comment_lines, attachment_lines.
  rewrite IC. cbn [andb bind ret result_monad]. fold (header_lines t).
  destruct (present (t_comments t)).
  - rewrite (comment_lines_text _ H).
    destruct (include_attachments self && present (t_attachments t));
      now rewrite <- ?app_assoc.
  - destruct (include_attachments self && present (t_attachments t));
      cbn [app]; now rewrite ?app_nil_r.
Qed.

(** C6. With comments requested, and every comment body a string, the
    text of each ticket is its six header lines, then, if it has comments,
    the block ["Comments:"] with one line
    [  - <author> (<created>): <first 100 characters of body>...] per
    comment, then the attachment block. The three dots end every comment
    line: a body of 100 characters or fewer is printed whole and still
    followed by them. *)
Theorem comment_lines_end_in_ellipsis (self : Config) (results : list Ticket) :
  include_comments self = true ->
  results <> [] ->
  (forall t c, In t results -> In c (items (t_comments t)) ->
               is_text (c_body c) = true) ->
  _format_search_results self results
  = Ok (join (nl ++ nl)
          (map (fun t => join nl (header_lines t ++ comment_lines t
                                    ++ attachment_lines self t)) results))
  /\ (forall t c, In t results -> In c (items (t_comments t)) ->
        comment_line c = Ok (spec_comment_line c)
        /\ In (join nl (lit "Comments:"
                          :: map spec_comment_line (items (t_comments t))))
              (comment_lines t))
  /\ (forall c s, c_body c = JStr s ->
        spec_comment_line c
        = lit "  - " ++ py_str (c_author c) ++ lit " (" ++ py_str (c_created c)
            ++ lit "): " ++ firstn 100 s ++ lit "..."
        /\ (length s <= 100 ->
            spec_comment_line c
            = lit "  - " ++ py_str (c_author c) ++ lit " (" ++ py_str (c_created c)
                ++ lit "): " ++ s ++ lit "...")).
Proof.
  intros IC NE H. split; [|split].
  - assert (All : mapM (format_ticket self) results
                  = Ok (map (fun t => join nl (header_lines t ++ comment_lines t
                                                 ++ attachment_lines self t)) results)).
    { clear NE. induction results as [|t ts IH]; [reflexivity|].
      cbn [mapM map bind ret result_monad].
      rewrite format_ticket_text
        by first [exact IC | intros c Hc; apply (H t c); [now left|exact Hc]].
      rewrite IH by (intros t' c' Ht' Hc'; apply (H t' c'); [now right|exact Hc']).
      reflexivity. }
    destruct results as [|t ts]; [congruence|].
    unfold _format_search_results. cbn [bind ret result_monad].
    now rewrite All.
  - intros t c Ht Hc. split.
    + apply comment_line_text. exact (H t c Ht Hc).
    + unfold comment_lines. destruct (t_comments t) as [[|c0 cs]|]; try destruct Hc.
      * left. reflexivity.
      * left. reflexivity.
  - intros c s Hs. unfold spec_comment_line. rewrite Hs. cbn [text_of].
    split; [reflexivity|]. intros L. now rewrite firstn_all2.
Qed.

(** *** Cleaning a key twice *)

Lemma lstrip_edge s : edge_ok (lstrip s) = true.
Proof.
  induction s as [|c s IH]; [reflexivity|]. cbn [lstrip].
  destruct (isspace c) eqn:E; [exact IH|]. cbn [edge_ok]. now rewrite E.
Qed.

Lemma lstrip_fixed s : edge_ok s = true -> lstrip s = s.
Proof.
  destruct s as [|c s]; [reflexivity|]. cbn [edge_ok lstrip].
  now destruct (isspace c).
Qed.

Lemma lstrip_app_nonspace l c r :
  isspace c = false -> lstrip (l ++ c :: r) = lstrip l ++ c :: r.
Proof.
  intros Hc. induction l as [|a l IH]; cbn [app lstrip].
  - now rewrite Hc.
  - destruct (isspace a); [exact IH|reflexivity].
Qed.

Lemma rstrip_cons c s : isspace c = false -> rstrip (c :: s) = c :: rstrip s.
Proof.
  intros Hc. unfold rstrip. cbn [rev].
  rewrite lstrip_app_nonspace by exact Hc. rewrite rev_app_distr. reflexivity.
Qed.

Lemma strip_edges s : edge_ok (strip s) = true /\ edge_ok (rev (strip s)) = true.
Proof.
  unfold strip. split.
  - pose proof (lstrip_edge s) as E. destruct (lstrip s) as [|c u]; [reflexivity|].
    cbn [edge_ok] in E. apply negb_true_iff in E.
    rewrite rstrip_cons by exact E. cbn [edge_ok]. now rewrite E.
  - unfold rstrip. rewrite rev_involutive. apply lstrip_edge.
Qed.

Lemma strip_fixed s : edge_ok s = true -> edge_ok (rev s) = true -> strip s = s.
Proof.
  intros H1 H2. unfold strip, rstrip.
  rewrite (lstrip_fixed _ H1), (lstrip_fixed _ H2). apply rev_involutive.
Qed.

Lemma printable_not_space d : (33 <= d <= 126)%N -> isspace d = false.
Proof.
  intros H. unfold isspace, whitespace. cbn [existsb].
  repeat match goal with
    | |- context [N.eqb d ?k] =>
        replace (N.eqb d k) with false by (symmetry; apply N.eqb_neq; lia)
    end.
  reflexivity.
Qed.

Lemma ascii_upper_cases c :
  (97 <= c <= 122 /\ ascii_upper c = c - 32 \/ ascii_upper c = c)%N.
Proof.
  unfold ascii_upper.
  destruct (N.leb_spec 97 c); destruct (N.leb_spec c 122); cbn [andb]; auto.
Qed.

Lemma upper_char_nonspace c :
  upper_keeps_nonspace -> isspace c = false ->
  upper_char unicode_upper c <> []
  /\ Forall (fun d => isspace d = false) (upper_char unicode_upper c).
Proof.
  intros K Hc. unfold upper_char. destruct (N.ltb_spec c 128) as [L|G].
  - split; [discriminate|]. constructor; [|constructor].
    destruct (ascii_upper_cases c) as [[R ->]| ->]; [|exact Hc].
    apply printable_not_space. lia.
  - now apply K.
Qed.

Lemma upper_app a b :
  upper unicode_upper (a ++ b) = upper unicode_upper a ++ upper unicode_upper b.
Proof. apply flat_map_app. Qed.

Lemma upper_char_stable c :
  upper_stable ->
  upper unicode_upper (upper_char unicode_upper c) = upper_char unicode_upper c.
Proof.
  intros St. unfold upper_char at 1 2. destruct (N.ltb_spec c 128) as [L|G].
  - unfold upper. cbn [flat_map]. rewrite app_nil_r. unfold upper_char.
    destruct (ascii_upper_cases c) as [[R E]|E]; rewrite E.
    + destruct (N.ltb_spec (c - 32) 128); [|lia].
      f_equal. unfold ascii_upper.
      destruct (N.leb_spec 97 (c - 32)); [lia|reflexivity].
    + destruct (N.ltb_spec c 128); [|lia]. now rewrite E.
  - now apply St.
Qed.

Lemma upper_idempotent s :
  upper_stable -> upper unicode_upper (upper unicode_upper s) = upper unicode_upper s.
Proof.
  intros St. induction s as [|c s IH]; [reflexivity|].
  change (upper unicode_upper (c :: s))
    with (upper_char unicode_upper c ++ upper unicode_upper s).
  now rewrite upper_app, upper_char_stable, IH.
Qed.

Lemma edge_ok_app l x :
  l <> [] -> Forall (fun d => isspace d = false) l -> edge_ok (l ++ x) = true.
Proof.
  destruct l as [|d l]; [congruence|]. intros _ F. inversion F as [|? ? Hd _]; subst.
  cbn [app edge_ok]. now rewrite Hd.
Qed.

Lemma edge_ok_upper s :
  upper_keeps_nonspace -> edge_ok s = true -> edge_ok (upper unicode_upper s) = true.
Proof.
  intros K. destruct s as [|c s]; [reflexivity|]. cbn [edge_ok]. intros Hc.
  apply negb_true_iff in Hc. destruct (@upper_char_nonspace c K Hc) as [NE F].
  change (upper unicode_upper (c :: s))
    with (upper_char unicode_upper c ++ upper unicode_upper s).
  now apply edge_ok_app.
Qed.

Lemma edge_ok_rev_upper s :
  upper_keeps_nonspace ->
  edge_ok (rev s) = true -> edge_ok (rev (upper unicode_upper s)) = true.
Proof.
  intros K H. destruct (rev s) as [|d r] eqn:R.
  - apply (f_equal (@rev char)) in R. rewrite rev_involutive in R. now subst s.
  - apply (f_equal (@rev char)) in R. rewrite rev_involutive in R. cbn [rev] in R.
    subst s. cbn [edge_ok] in H. apply negb_true_iff in H.
    destruct (@upper_char_nonspace d K H) as [NE F].
    rewrite upper_app, rev_app_distr.
    change (upper unicode_upper [d]) with (upper_char unicode_upper d ++ []).
    rewrite app_nil_r. apply edge_ok_app.
    + intros E. apply NE. apply (f_equal (@rev char)) in E.
      now rewrite rev_involutive in E.
    + now apply Forall_rev.
Qed.

Lemma clean_key_idempotent s :
  upper_stable -> upper_keeps_nonspace ->
  upper unicode_upper (strip (upper unicode_upper (strip s)))
  = upper unicode_upper (strip s).
Proof.
  intros St K. destruct (strip_edges s) as [E1 E2].
  rewrite (@strip_fixed (upper unicode_upper (strip s))).
  - now apply upper_idempotent.
  - now apply edge_ok_upper.
  - now apply edge_ok_rev_upper.
Qed.

(** C9. Given the two facts of the upper-case table, [_search_by_specific_id]
    is [_search_by_key]: cleaning the identifier a second time changes
    nothing, so on every input, server and trace both return the same
    result after the same requests and log records, and so do the two
    tools built on them. *)
Theorem specific_id_same_as_key (self : Config) (s : pystr) sv tr :
  upper_stable -> upper_keeps_nonspace ->
  _search_by_specific_id self s sv tr = _search_by_key self s sv tr
  /\ tool_func self _search_by_specific_id s sv tr
     = tool_func self _search_by_key s sv tr.
Proof.
  intros St K.
  assert (Same : forall x sv' tr',
             _search_by_specific_id self x sv' tr' = _search_by_key self x sv' tr').
  { intros x sv' tr'. unfold _search_by_specific_id, _search_by_key.
    now rewrite (@clean_key_idempotent x St K). }
  split; [apply Same|].
  unfold tool_func. cbn [bind M_monad]. now rewrite Same.
Qed.

(** *** Every request is signed and goes to the configured instance *)

Section SendsOnly.

Variable P : Request -> Prop.

Lemma sends_only_ret {A} (a : A) : sends_only P (ret a).
Proof. intros sv tr. exists []. simpl. rewrite app_nil_r. auto. Qed.

Lemma sends_only_lift {A} (r : result A) : sends_only P (lift r).
Proof. intros sv tr. exists []. simpl. rewrite app_nil_r. auto. Qed.

Lemma sends_only_bind {A B} (c : M A) (k : A -> M B) :
  sends_only P c -> (forall a, sends_only P (k a)) -> sends_only P (bind c k).
Proof.
  intros Hc Hk sv tr. simpl.
  destruct (Hc sv tr) as [evs [E S]].
  destruct (c sv tr) as [[a|e] tr1]; simpl in *; subst tr1.
  - destruct (Hk a sv (tr ++ evs)) as [evs' [E' S']].
    exists (evs ++ evs'). rewrite E', app_assoc. split; [reflexivity|].
    rewrite requests_of_app. apply Forall_app. auto.
  - now exists evs.
Qed.

Lemma sends_only_mapM {A B} (f : A -> M B) (l : list A) :
  (forall a, sends_only P (f a)) -> sends_only P (mapM f l).
Proof.
  intros Hf. induction l as [|a l IH]; simpl mapM.
  - apply sends_only_ret.
  - apply sends_only_bind; [apply Hf|]. intros b.
    apply sends_only_bind; [apply IH|]. intros bs. apply sends_only_ret.
Qed.

Lemma sends_only_try {A} (body : M A) (handler : exn -> M A) :
  sends_only P body -> (forall e, sends_only P (handler e)) ->
  sends_only P (try_except body handler).
Proof.
  intros Hb Hh sv tr. unfold try_except.
  destruct (Hb sv tr) as [evs [E S]].
  destruct (body sv tr) as [[a|e] tr1]; simpl in *; subst tr1.
  - now exists evs.
  - destruct (Hh e sv (tr ++ evs)) as [evs' [E' S']].
    exists (evs ++ evs'). rewrite E', app_assoc. split; [reflexivity|].
    rewrite requests_of_app. apply Forall_app. auto.
Qed.

Lemma sends_only_warning message : sends_only P (logger_warning message).
Proof. intros sv tr. exists [Warning message]. simpl. auto. Qed.

Lemma sends_only_make_request (self : Config) url params :
  P (request_for self url params) -> sends_only P (_make_request self url params).
Proof.
  intros H sv tr. rewrite make_request_run. cbn [snd].
  exists [Sent (request_for self url params)]. simpl. auto.
Qed.

End SendsOnly.

Lemma signed_request (self : Config) path params :
  signed self (request_for self (jira_instance self ++ path) params).
Proof. unfold signed. cbn. repeat split. now exists path. Qed.

Lemma signed_process_ticket (self : Config) ticket :
  sends_only (signed self) (_process_ticket self ticket).
Proof.
  unfold _process_ticket.
  apply sends_only_bind; [apply sends_only_lift|]. intros t.
  apply sends_only_bind.
  { destruct (include_comments self) eqn:IC; [|apply sends_only_ret].
    apply sends_only_bind; [|intros; apply sends_only_ret].
    unfold _get_comments. rewrite IC. cbn [negb].
    apply sends_only_bind; [|intros; apply sends_only_lift].
    apply sends_only_make_request. apply signed_request. }
  intros t'. apply sends_only_bind; [|intros; apply sends_only_ret].
  destruct (include_attachments self) eqn:IA; [|apply sends_only_ret].
  apply sends_only_bind; [|intros; apply sends_only_ret].
  unfold _get_attachments. rewrite IA. cbn [negb].
  apply sends_only_bind; [|intros; apply sends_only_lift].
  apply sends_only_make_request. apply signed_request.
Qed.

Lemma signed_search_by_jql (self : Config) q :
  sends_only (signed self) (_search_by_jql self q).
Proof.
  unfold _search_by_jql.
  apply sends_only_bind; [apply sends_only_make_request, signed_request|].
  intros response. apply sends_only_bind; [apply sends_only_lift|]. intros issues.
  unfold _process_search_results.
  apply sends_only_bind; [apply sends_only_lift|]. intros l.
  apply sends_only_mapM. apply signed_process_ticket.
Qed.

Lemma signed_search_by_key (self : Config) s :
  sends_only (signed self) (_search_by_key self s).
Proof.
  unfold _search_by_key. apply sends_only_try.
  - unfold direct_lookup.
    apply sends_only_bind; [apply sends_only_make_request, signed_request|].
    intros response. apply sends_only_bind; [apply signed_process_ticket|].
    intros; apply sends_only_ret.
  - intros e. unfold fallback_search.
    apply sends_only_bind; [apply sends_only_warning|]. intros _.
    apply signed_search_by_jql.
Qed.

Lemma signed_tool_func (self : Config) search input :
  (forall x, sends_only (signed self) (search self x)) ->
  sends_only (signed self) (tool_func self search input).
Proof.
  intros H. unfold tool_func.
  apply sends_only_bind; [apply H|]. intros; apply sends_only_lift.
Qed.

(** X5. Whatever tool is built and whatever its input, a run only appends
    to the trace, and every request it sends carries the configured
    username and token, the two JSON headers, and a URL that starts with
    the configured instance URL. *)
Theorem requests_are_signed (self : Config) :
  Forall (fun t => forall input, sends_only (signed self) (func t input))
         (build_tool self).
Proof.
  apply Forall_forall. intros t H input. unfold build_tool in H.
  repeat (apply in_cond_append in H; destruct H as [H| ->]);
    [destruct H | cbn [func]; apply signed_tool_func; intros x ..].
  - apply signed_search_by_jql.
  - apply signed_search_by_jql.
  - apply signed_search_by_key.
  - unfold _search_by_specific_id. apply signed_search_by_key.
  - apply signed_search_by_jql.
  - apply signed_search_by_jql.
  - apply signed_search_by_jql.
Qed.

(** *** How many requests a search costs *)

Lemma sent_app a b : sent (a ++ b) = sent a + sent b.
Proof. unfold sent. now rewrite requests_of_app, length_app. Qed.

Lemma sent_one r : sent [Sent r] = 1.
Proof. reflexivity. Qed.

Lemma make_request_snd (self : Config) url params sv tr :
  snd (_make_request self url params sv tr) = tr ++ [Sent (request_for self url params)].
Proof. now rewrite make_request_run. Qed.

Lemma get_comments_sent (self : Config) k sv tr :
  sent (snd (_get_comments self k sv tr))
  = sent tr + (if include_comments self then 1 else 0).
Proof.
  unfold _get_comments. destruct (include_comments self); cbn [negb].
  - cbn [bind M_monad].
    match goal with
    | |- context [_make_request self ?u None sv tr] =>
        pose proof (make_request_snd self u None sv tr) as E;
        destruct (_make_request self u None sv tr) as [[r|e] tr1]
    end; cbn [snd] in E; subst tr1; cbn [snd lift]; now rewrite sent_app, sent_one.
  - cbn [ret M_monad snd]. lia.
Qed.

Lemma get_attachments_sent (self : Config) k sv tr :
  sent (snd (_get_attachments self k sv tr))
  = sent tr + (if include_attachments self then 1 else 0).
Proof.
  unfold _get_attachments. destruct (include_attachments self); cbn [negb].
  - cbn [bind M_monad].
    match goal with
    | |- context [_make_request self ?u None sv tr] =>
        pose proof (make_request_snd self u None sv tr) as E;
        destruct (_make_request self u None sv tr) as [[r|e] tr1]
    end; cbn [snd] in E; subst tr1; cbn [snd lift]; now rewrite sent_app, sent_one.
  - cbn [ret M_monad snd]. lia.
Qed.

Lemma process_ticket_sent (self : Config) ticket sv tr :
  sent (snd (_process_ticket self ticket sv tr)) <= sent tr + enrichment_calls self
  /\ (forall t tr', _process_ticket self ticket sv tr = (Ok t, tr') ->
                    sent tr' = sent tr + enrichment_calls self).
Proof.
  rewrite process_ticket_run. unfold enrichment_calls.
  destruct (ticket_fields self ticket) as [t0|e]; [|split; [cbn [snd]; lia|discriminate]].
  pose proof (get_comments_sent self (t_key t0) sv tr) as C.
  destruct (include_comments self).
  - destruct (_get_comments self (t_key t0) sv tr) as [[cs|e] tr1]; cbn [snd] in C.
    + pose proof (get_attachments_sent self (t_key (set_comments t0 cs)) sv tr1) as A.
      destruct (include_attachments self).
      * destruct (_get_attachments self _ sv tr1) as [[ats|e] tr2]; cbn [snd] in *.
        -- split; [lia|]. intros t tr' H. injection H as _ <-. lia.
        -- split; [lia|discriminate].
      * cbn [snd]. split; [lia|]. intros t tr' H. injection H as _ <-. lia.
    + cbn [snd]. split; [lia|discriminate].
  - pose proof (get_attachments_sent self (t_key t0) sv tr) as A.
    destruct (include_attachments self).
    + destruct (_get_attachments self _ sv tr) as [[ats|e] tr2]; cbn [snd] in *.
      * split; [lia|]. intros t tr' H. injection H as _ <-. lia.
      * split; [lia|discriminate].
    + cbn [snd]. split; [lia|]. intros t tr' H. injection H as _ <-. lia.
Qed.

Lemma process_all_sent (self : Config) l sv tr ts tr' :
  mapM (_process_ticket self) l sv tr = (Ok ts, tr') ->
  length ts = length l /\ sent tr' = sent tr + length l * enrichment_calls self.
Proof.
  revert tr ts tr'. induction l as [|a l IH]; intros tr ts tr'.
  - cbn [mapM ret M_monad length]. intros H. injection H as <- <-.
    split; [reflexivity|lia].
  - cbn [mapM bind ret M_monad].
    destruct (_process_ticket self a sv tr) as [[t|e] tr1] eqn:T; [|discriminate].
    destruct (mapM (_process_ticket self) l sv tr1) as [[ts1|e] tr2] eqn:R;
      [|discriminate].
    intros H. injection H as <- <-.
    destruct (IH _ _ _ R) as [L S].
    destruct (process_ticket_sent self a sv tr) as [_ One].
    rewrite S, (One _ _ T). cbn [length]. split; [now rewrite L|lia].
Qed.

(** X1. A search that succeeds has sent one search request and, for each
    ticket it returns, one request per requested enrichment (comments,
    attachments): [1 + N * (0, 1 or 2)] requests for [N] tickets. *)
Theorem search_request_count (self : Config) q sv tr ts tr' :
  _search_by_jql self q sv tr = (Ok ts, tr') ->
  sent tr' = sent tr + 1 + length ts * enrichment_calls self.
Proof.
  unfold _search_by_jql. cbn [bind M_monad].
  match goal with
  | |- context [_make_request self ?u ?ps sv tr] =>
      pose proof (make_request_snd self u ps sv tr) as E;
      destruct (_make_request self u ps sv tr) as [[response|e] tr1]
  end; [|discriminate].
  cbn [snd] in E. subst tr1. unfold lift at 1.
  destruct (py_get response (lit "issues") (JArr [])) as [issues|e]; [|discriminate].
  unfold _process_search_results. cbn [bind M_monad]. unfold lift at 1.
  destruct (py_iter issues) as [l|e]; [|discriminate].
  intros H. destruct (process_all_sent self l sv _ H) as [L S].
  rewrite S, sent_app, L, sent_one. lia.
Qed.

(** *** Records the normalizer rejects *)

Lemma py_get_raise v k default e :
  py_get v k default = Raise e -> exn_cls e = AttributeError.
Proof. destruct v; cbn [py_get]; intros H; now inversion H. Qed.

Lemma py_get_ok_dict v k default x : py_get v k default = Ok x -> is_dict v = true.
Proof. destruct v; cbn [py_get]; intros H; now inversion H. Qed.

Lemma display_name_or_raise fields who sentinel e :
  display_name_or fields who sentinel = Raise e -> exn_cls e = AttributeError.
Proof.
  unfold display_name_or. cbn [bind ret result_monad].
  destruct (py_get fields who JNull) as [x|e0] eqn:G.
  - destruct (truthy x); [|discriminate].
    destruct (py_get fields who (JObj [])) as [p|e1] eqn:G1.
    + apply py_get_raise.
    + intros H. injection H as <-. exact (py_get_raise _ _ _ G1).
  - intros H. injection H as <-. exact (py_get_raise _ _ _ G).
Qed.

Lemma display_name_or_ok f who sentinel v :
  display_name_or (JObj f) who sentinel = Ok v ->
  negb (truthy (entry_or f who JNull)) || is_dict (entry_or f who JNull) = true.
Proof.
  unfold display_name_or. rewrite !py_get_dict. cbn [bind ret result_monad].
  unfold entry_or. destruct (dict_lookup f who) as [x|]; [|reflexivity].
  destruct (truthy x); [|reflexivity]. cbn [negb orb].
  apply py_get_ok_dict.
Qed.

Ltac bind_raise H :=
  repeat match type of H with
    | (match ?c with Ok _ => _ | Raise _ => _ end) = Raise _ =>
        let E := fresh "E" in
        destruct c eqn:E;
        [| injection H as <-;
           first [exact (py_get_raise _ _ _ E) | exact (display_name_or_raise _ _ _ E)]]
    end.

Lemma ticket_fields_raise (self : Config) ticket e :
  ticket_fields self ticket = Raise e -> exn_cls e = AttributeError.
Proof.
  unfold ticket_fields. cbn [bind ret result_monad]. intros H.
  bind_raise H. discriminate.
Qed.

Lemma ticket_fields_ok_shape (self : Config) ticket t :
  ticket_fields self ticket = Ok t -> well_formed_ticket ticket = true.
Proof.
  destruct ticket as [| | | | | |m]; try discriminate.
  unfold ticket_fields. rewrite !py_get_dict. cbn [bind ret result_monad].
  cbn [well_formed_ticket].
  destruct (entry_or m (lit "fields") (JObj [])) as [| | | | | |f]; try discriminate.
  rewrite !py_get_dict. cbn [bind ret result_monad].
  destruct (py_get (entry_or f (lit "status") (JObj [])) (lit "name") JNull)
    as [sn|] eqn:S; [|discriminate].
  destruct (py_get (entry_or f (lit "priority") (JObj [])) (lit "name") JNull)
    as [pn|] eqn:P; [|discriminate].
  destruct (display_name_or (JObj f) (lit "assignee") (lit "Unassigned"))
    as [a|] eqn:A; [|discriminate].
  destruct (display_name_or (JObj f) (lit "reporter") (lit "Unknown"))
    as [r|] eqn:R; [|discriminate].
  intros _.
  rewrite (py_get_ok_dict _ _ _ S), (py_get_ok_dict _ _ _ P),
    (display_name_or_ok _ _ _ A), (display_name_or_ok _ _ _ R).
  reflexivity.
Qed.

(** X2. A raw record that is not of the documented shape (say, one whose
    [priority] or [status] is null, or whose [assignee] is a plain string)
    makes [_process_ticket] raise an [AttributeError], before any request
    for comments or attachments is sent. Records that are normalized are
    therefore all of that shape. *)
Theorem malformed_record_is_rejected (self : Config) (ticket : json) sv tr :
  well_formed_ticket ticket = false ->
  exists e, _process_ticket self ticket sv tr = (Raise e, tr)
            /\ exn_cls e = AttributeError.
Proof.
  intros W. rewrite process_ticket_run.
  destruct (ticket_fields self ticket) as [t|e] eqn:F.
  - rewrite (ticket_fields_ok_shape self ticket F) in W. discriminate.
  - exists e. split; [reflexivity|]. exact (ticket_fields_raise self ticket F).
Qed.

Lemma process_all_rejects (self : Config) l bad sv :
  In bad l -> well_formed_ticket bad = false ->
  forall tr, exists e, fst (mapM (_process_ticket self) l sv tr) = Raise e.
Proof.
  intros I W. induction l as [|a l IH]; [destruct I|]. intros tr.
  cbn [mapM bind ret M_monad].
  destruct I as [->|I].
  - rewrite process_ticket_run.
    destruct (ticket_fields self bad) as [t|e] eqn:F.
    + rewrite (ticket_fields_ok_shape self bad F) in W. discriminate.
    + now exists e.
  - destruct (_process_ticket self a sv tr) as [[t|e] tr1]; [|now exists e].
    destruct (IH I tr1) as [e E].
    destruct (mapM (_process_ticket self) l sv tr1) as [[ts|e'] tr2];
      cbn [fst] in E; [discriminate|]. now exists e'.
Qed.

(** X12. A search gives all of its tickets or none: when the service
    answers the search with a list of issues of which one is not of the
    documented shape, [_search_by_jql] raises, and the tickets normalized
    before it are not returned. *)
Theorem search_has_no_partial_results (self : Config) q sv tr response v l bad :
  sv (requests_of tr) (search_request self q) = Ok response ->
  status_code response = 200%Z ->
  body response = Parsed v ->
  py_get v (lit "issues") (JArr []) = Ok (JArr l) ->
  In bad l ->
  well_formed_ticket bad = false ->
  exists e, fst (_search_by_jql self q sv tr) = Raise e.
Proof.
  intros Hsv H200 Hb Hi I W. unfold _search_by_jql. cbn [bind M_monad].
  rewrite make_request_run. fold (search_request self q).
  rewrite Hsv, H200. cbn [Z.eqb Pos.eqb negb]. unfold response_json. rewrite Hb.
  unfold lift at 1. rewrite Hi. unfold _process_search_results.
  cbn [bind M_monad lift py_iter]. apply (process_all_rejects self l bad sv I W).
Qed.

(** X3. How [_search_by_jql] takes a 200 answer: a JSON value that is not
    an object raises an [AttributeError]; an object without [issues], or
    with an empty list of them, gives no ticket; [issues] set to null
    raises a [TypeError]. One request is sent in each case. *)
Theorem search_answer_shapes (self : Config) q sv tr response v :
  sv (requests_of tr) (search_request self q) = Ok response ->
  status_code response = 200%Z ->
  body response = Parsed v ->
  (is_dict v = false ->
   exists e, _search_by_jql self q sv tr
             = (Raise e, tr ++ [Sent (search_request self q)])
             /\ exn_cls e = AttributeError)
  /\ (forall m, v = JObj m -> dict_lookup m (lit "issues") = None ->
        _search_by_jql self q sv tr = (Ok [], tr ++ [Sent (search_request self q)]))
  /\ (forall m, v = JObj m -> dict_lookup m (lit "issues") = Some (JArr []) ->
        _search_by_jql self q sv tr = (Ok [], tr ++ [Sent (search_request self q)]))
  /\ (forall m, v = JObj m -> dict_lookup m (lit "issues") = Some JNull ->
        _search_by_jql self q sv tr
        = (Raise (Exn TypeError (lit "'NoneType' object is not iterable")),
           tr ++ [Sent (search_request self q)])).
Proof.
  intros Hsv H200 Hb.
  assert (Run : _search_by_jql self q sv tr
                = match py_get v (lit "issues") (JArr []) with
                  | Ok issues =>
                      _process_search_results self issues sv
                        (tr ++ [Sent (search_request self q)])
                  | Raise e => (Raise e, tr ++ [Sent (search_request self q)])
                  end).
  { unfold _search_by_jql. cbn [bind M_monad]. rewrite make_request_run.
    fold (search_request self q). rewrite Hsv, H200. cbn [Z.eqb Pos.eqb negb].
    unfold response_json. rewrite Hb. unfold lift at 1.
    now destruct (py_get v (lit "issues") (JArr [])). }
  rewrite Run. repeat split.
  - intros D. destruct (py_get v (lit "issues") (JArr [])) as [x|e] eqn:G.
    + rewrite (py_get_ok_dict _ _ _ G) in D. discriminate.
    + exists e. split; [reflexivity|]. exact (py_get_raise _ _ _ G).
  - intros m -> L. rewrite py_get_dict. unfold entry_or. rewrite L. reflexivity.
  - intros m -> L. rewrite py_get_dict. unfold entry_or. rewrite L. reflexivity.
  - intros m -> L. rewrite py_get_dict. unfold entry_or. rewrite L. reflexivity.
Qed.

(** *** When the formatter raises *)

Lemma mapM_result_ok {A B} (f : A -> result B) (l : list A) :
  (exists ys, mapM f l = Ok ys) <-> (forall x, In x l -> exists y, f x = Ok y).
Proof.
  induction l as [|a l IH]; cbn [mapM bind ret result_monad].
  - split; [intros _ x []|eauto].
  - split.
    + intros [ys H] x [<-|I].
      * destruct (f a); [eauto|discriminate].
      * destruct (f a); [|discriminate].
        destruct (mapM f l) as [bs|] eqn:M; [|discriminate].
        apply (proj1 IH); eauto.
    + intros H. destruct (H a (or_introl eq_refl)) as [y ->].
      destruct (proj2 IH (fun x I => H x (or_intror I))) as [ys ->]. eauto.
Qed.

Lemma comment_line_ok (c : Comment) :
  (exists line, comment_line c = Ok line) <-> sliceable (c_body c) = true.
Proof.
  unfold comment_line. cbn [bind ret result_monad].
  destruct (c_body c); cbn [py_slice100 sliceable]; split;
    try reflexivity; try discriminate; eauto; intros [line H]; discriminate.
Qed.

Lemma items_absent {A} (l : option (list A)) : present l = false -> items l = [].
Proof. destruct l as [[|a l]|]; cbn; congruence. Qed.

Lemma format_ticket_ok (self : Config) (t : Ticket) :
  (exists text, format_ticket self t = Ok text)
  <-> (include_comments self = false
       \/ forall c, In c (items (t_comments t)) -> sliceable (c_body c) = true).
Proof.
  unfold format_ticket. cbn [bind ret result_monad].
  destruct (include_comments self); cbn [andb].
  - destruct (present (t_comments t)) eqn:Pr.
    + split.
      * intros [text H]. right. intros c I. apply comment_line_ok.
        destruct (mapM comment_line (items (t_comments t))) as [ls|] eqn:M;
          [|discriminate].
        exact (proj1 (mapM_result_ok comment_line _) (ex_intro _ ls M) c I).
      * intros [D|All]; [discriminate|].
        destruct (proj2 (mapM_result_ok comment_line (items (t_comments t))))
          as [ls ->]; [|eauto].
        intros c I. apply comment_line_ok. auto.
    + split; [|eauto]. intros _. right. rewrite (items_absent _ Pr). intros c [].
  - split; eauto.
Qed.

(** X4. Formatting succeeds unless it has to print a comment whose body
    cannot be cut: with comments requested, [_format_search_results]
    returns a text exactly when every comment body of every ticket is a
    string (or a list); a comment without body (its body is [None]) makes
    it raise. With comments not requested it always returns a text. *)
Theorem format_succeeds_iff (self : Config) (results : list Ticket) :
  (exists text, _format_search_results self results = Ok text)
  <-> (include_comments self = false
       \/ forall t c, In t results -> In c (items (t_comments t)) ->
                      sliceable (c_body c) = true).
Proof.
  assert (All : (exists texts, mapM (format_ticket self) results = Ok texts)
                <-> (include_comments self = false
                     \/ forall t c, In t results -> In c (items (t_comments t)) ->
                                    sliceable (c_body c) = true)).
  { rewrite mapM_result_ok. split.
    - intros H. destruct (include_comments self) eqn:IC; [right|now left].
      intros t c It Ic.
      destruct (proj1 (format_ticket_ok self t) (H t It)) as [D|S]; [congruence|].
      now apply S.
    - intros H t It. apply format_ticket_ok.
      destruct H as [D|S]; [now left|right]. intros c Ic. now apply (S t c). }
  destruct results as [|t ts].
  - split; [|cbn; eauto]. intros _.
    destruct (include_comments self); [right|now left]. intros t c [].
  - unfold _format_search_results. cbn [bind ret result_monad].
    rewrite <- All. split.
    + intros [text H].
      destruct (mapM (format_ticket self) (t :: ts)) as [texts|]; [eauto|discriminate].
    + intros [texts ->]. eauto.
Qed.

(** *** Blanks around a tool's input *)

Lemma lstrip_blank_prefix w s : blank w -> lstrip (w ++ s) = lstrip s.
Proof.
  induction 1 as [|c w Hc _ IH]; [reflexivity|]. cbn [app lstrip]. now rewrite Hc.
Qed.

Lemma lstrip_blank w : blank w -> lstrip w = [].
Proof. intros B. rewrite <- (app_nil_r w). now rewrite lstrip_blank_prefix. Qed.

Lemma blank_rev w : blank w -> blank (rev w).
Proof. apply Forall_rev. Qed.

Lemma rstrip_blank_suffix s w : blank w -> rstrip (s ++ w) = rstrip s.
Proof.
  intros B. unfold rstrip. rewrite rev_app_distr.
  now rewrite lstrip_blank_prefix by now apply blank_rev.
Qed.

Lemma strip_padded w1 s w2 : blank w1 -> blank w2 -> strip (w1 ++ s ++ w2) = strip s.
Proof.
  intros B1 B2. unfold strip. rewrite lstrip_blank_prefix by exact B1.
  destruct (lstrip s) as [|c u] eqn:L.
  - assert (Bs : blank s).
    { clear - L. induction s as [|a s IH]; [constructor|]. cbn [lstrip] in L.
      destruct (isspace a) eqn:E; [|discriminate].
      constructor; [exact E|exact (IH L)]. }
    rewrite lstrip_blank; [|apply Forall_app; split; assumption].
    reflexivity.
  - assert (Hc : isspace c = false).
    { pose proof (lstrip_edge s) as E. rewrite L in E. cbn [edge_ok] in E.
      now apply negb_true_iff in E. }
    assert (Split : exists pre, s = pre ++ c :: u /\ blank pre).
    { clear - L. induction s as [|a s IH]; [discriminate|]. cbn [lstrip] in L.
      destruct (isspace a) eqn:E.
      - destruct (IH L) as [pre [-> B]]. exists (a :: pre). split; [reflexivity|].
        constructor; [exact E|exact B].
      - injection L as <- <-. exists []. split; [reflexivity|constructor]. }
    destruct Split as [pre [-> Bp]].
    rewrite <- app_assoc. rewrite lstrip_blank_prefix by exact Bp.
    cbn [app lstrip]. rewrite Hc.
    change (c :: u ++ w2) with ((c :: u) ++ w2).
    now apply rstrip_blank_suffix.
Qed.

(** X6. Blanks around the input of a tool do not matter: [strip] removes
    any run of blank characters before and after the text, so a tool run
    on the padded input is the run on the bare input, with the same result
    and the same requests. *)
Theorem tool_ignores_padding (self : Config) search (w1 s w2 : pystr) sv tr :
  blank w1 -> blank w2 ->
  strip (w1 ++ s ++ w2) = strip s
  /\ tool_func self search (w1 ++ s ++ w2) sv tr = tool_func self search s sv tr.
Proof.
  intros B1 B2. split; [now apply strip_padded|].
  unfold tool_func. now rewrite strip_padded.
Qed.

(** *** The registry for any configuration *)

Lemma pystr_eqb_eq a b : PyStr.eqb a b = true <-> a = b.
Proof.
  unfold PyStr.eqb. destruct (list_eq_dec N.eq_dec a b); split; congruence.
Qed.

Lemma select_in {A} (bs : list bool) (xs : list A) y : In y (select bs xs) -> In y xs.
Proof.
  revert bs. induction xs as [|x xs IH]; intros [|b bs]; cbn [select]; try easy.
  rewrite in_app_iff. intros [H|H]; [|right; eauto].
  destruct b; [|destruct H]. destruct H as [<-|[]]. now left.
Qed.

Lemma select_NoDup {A} (bs : list bool) (xs : list A) :
  NoDup xs -> NoDup (select bs xs).
Proof.
  revert bs. induction xs as [|x xs IH]; intros [|b bs] H; cbn [select];
    try constructor.
  inversion H as [|? ? Nx Nxs]; subst. destruct b; cbn [app]; [|now apply IH].
  constructor; [|now apply IH]. intros I. apply Nx. exact (select_in _ _ _ I).
Qed.

(** The shape of [build_tool], for any seven tests and tools. *)
Lemma registry_names (b1 b2 b3 b4 b5 b6 b7 : bool) (x1 x2 x3 x4 x5 x6 x7 : Tool) :
  NoDup (map name [x1; x2; x3; x4; x5; x6; x7]) ->
  let tools := [] in
  let tools := if b1 then tools ++ [x1] else tools in
  let tools := if b2 then tools ++ [x2] else tools in
  let tools := if b3 then tools ++ [x3] else tools in
  let tools := if b4 then tools ++ [x4] else tools in
  let tools := if b5 then tools ++ [x5] else tools in
  let tools := if b6 then tools ++ [x6] else tools in
  let tools := if b7 then tools ++ [x7] else tools in
  NoDup (map name tools) /\ length (map name tools) <= 7.
Proof.
  intros H.
  generalize (select_NoDup [b1; b2; b3; b4; b5; b6; b7] H).
  destruct b1, b2, b3, b4, b5, b6, b7; cbn; intros G; (split; [exact G|lia]).
Qed.

(** X7. For every configuration the tools of [build_tool] have different
    names and are at most seven; none is built exactly when the configured
    search type is not one of the eight options of the dropdown (a
    misspelt or empty search type yields an empty tool list, not an
    error). *)
Theorem build_tool_any_config (self : Config) :
  NoDup (map name (build_tool self))
  /\ length (build_tool self) <= 7
  /\ (build_tool self = [] <-> py_in (search_type self) search_type_options = false).
Proof.
  assert (Names : NoDup (map name (build_tool self))
                  /\ length (map name (build_tool self)) <= 7).
  { unfold build_tool. apply registry_names. apply NoDup_by_nodup. vm_compute.
    reflexivity. }
  rewrite length_map in Names. destruct Names as [ND Len].
  split; [exact ND|]. split; [exact Len|].
  - split.
    + intros Empty.
      destruct (py_in (search_type self) search_type_options) eqn:In8; [|reflexivity].
      exfalso. unfold py_in, search_type_options in In8. cbn [existsb] in In8.
      repeat (apply orb_prop in In8; destruct In8 as [In8|In8]);
        try discriminate In8;
        apply pystr_eqb_eq in In8; unfold build_tool in Empty;
        rewrite In8 in Empty; discriminate Empty.
    + unfold py_in, search_type_options. cbn [existsb]. intros H.
      repeat (apply orb_false_elim in H; destruct H as [? H]).
      unfold build_tool, py_in. cbn [existsb].
      repeat match goal with
        | E : PyStr.eqb _ _ = false |- _ => rewrite E; clear E
        end.
      reflexivity.
Qed.

(** *** What a normalized ticket carries *)

Lemma ticket_fields_passthrough (self : Config) ticket t :
  ticket_fields self ticket = Ok t ->
  t_summary t = raw_field ticket (lit "summary")
  /\ t_description t = raw_field ticket (lit "description")
  /\ t_created t = raw_field ticket (lit "created")
  /\ t_updated t = raw_field ticket (lit "updated")
  /\ t_comments t = None
  /\ t_attachments t = None.
Proof.
  destruct ticket as [| | | | | |m]; try discriminate.
  unfold ticket_fields, raw_field. rewrite !py_get_dict. cbn [bind ret result_monad].
  destruct (entry_or m (lit "fields") (JObj [])) as [| | | | | |f]; try discriminate.
  rewrite !py_get_dict. cbn [bind ret result_monad].
  destruct (py_get (entry_or f (lit "status") (JObj [])) (lit "name") JNull);
    [|discriminate].
  destruct (py_get (entry_or f (lit "priority") (JObj [])) (lit "name") JNull);
    [|discriminate].
  destruct (display_name_or (JObj f) (lit "assignee") (lit "Unassigned"));
    [|discriminate].
  destruct (display_name_or (JObj f) (lit "reporter") (lit "Unknown"));
    [|discriminate].
  intros H. injection H as <-. cbn. repeat split.
Qed.

(** X8. In a ticket [_process_ticket] returns, the [comments] key is set
    exactly when comments are requested, and the [attachments] key exactly
    when attachments are (also when the service has none to list); the
    summary, description, created and updated values are the record's own,
    [None] for an entry the record lacks. *)
Theorem processed_ticket_fields (self : Config) (ticket : json) sv tr t tr' :
  _process_ticket self ticket sv tr = (Ok t, tr') ->
  ((exists cs, t_comments t = Some cs) <-> include_comments self = true)
  /\ ((exists ats, t_attachments t = Some ats) <-> include_attachments self = true)
  /\ t_summary t = raw_field ticket (lit "summary")
  /\ t_description t = raw_field ticket (lit "description")
  /\ t_created t = raw_field ticket (lit "created")
  /\ t_updated t = raw_field ticket (lit "updated").
Proof.
  rewrite process_ticket_run.
  destruct (ticket_fields self ticket) as [t0|e] eqn:F; [|discriminate].
  destruct (ticket_fields_passthrough self ticket F) as (S & D & C & U & NC & NA).
  rewrite <- S, <- D, <- C, <- U.
  destruct (include_comments self).
  - destruct (_get_comments self (t_key t0) sv tr) as [[cs|e] tr1]; [|discriminate].
    destruct (include_attachments self).
    + destruct (_get_attachments self _ sv tr1) as [[ats|e] tr2]; [|discriminate].
      intros H. injection H as <- _. cbn. repeat split; eauto.
    + intros H. injection H as <- _. cbn. rewrite NA.
      repeat split; eauto; try discriminate. intros [ats H]. discriminate.
  - destruct (include_attachments self).
    + destruct (_get_attachments self _ sv tr) as [[ats|e] tr2]; [|discriminate].
      intros H. injection H as <- _. cbn. rewrite NC.
      repeat split; eauto; try discriminate. intros [cs H]. discriminate.
    + intros H. injection H as <- _. rewrite NC, NA.
      repeat split; eauto; try discriminate; intros [x H]; discriminate.
Qed.

(** *** Comments in the order of the service *)

Lemma mapM_result_Forall2 {A B} (f : A -> result B) (l : list A) ys :
  mapM f l = Ok ys -> Forall2 (fun x y => f x = Ok y) l ys.
Proof.
  revert ys. induction l as [|a l IH]; cbn [mapM bind ret result_monad]; intros ys H.
  - injection H as <-. constructor.
  - destruct (f a) as [b|] eqn:Fa; [|discriminate].
    destruct (mapM f l) as [bs|]; [|discriminate].
    injection H as <-. constructor; auto.
Qed.

Lemma comment_of_shaped item :
  (exists c, comment_of item = Ok c) <-> comment_shaped item = true.
Proof.
  unfold comment_of, comment_shaped. cbn [bind ret result_monad].
  destruct item as [| | | | | |m]; try (split; [intros [c H]|]; discriminate).
  rewrite !py_get_dict.
  destruct (entry_or m (lit "author") (JObj [])) as [| | | | | |a];
    try (split; [intros [c H]|]; discriminate).
  rewrite py_get_dict. split; eauto.
Qed.

Lemma comment_of_flattened item c : comment_of item = Ok c -> flattened item c.
Proof.
  unfold comment_of, flattened. cbn [bind ret result_monad].
  destruct item as [| | | | | |m]; try discriminate.
  rewrite !py_get_dict.
  destruct (entry_or m (lit "author") (JObj [])) as [| | | | | |a] eqn:A;
    try discriminate.
  rewrite py_get_dict. intros H. injection H as <-. exists m.
  cbn [c_author c_created c_body]. rewrite A.
  repeat split. intros a' E. now injection E as <-.
Qed.

Lemma get_comments_run (self : Config) k sv tr :
  include_comments self = true ->
  fst (_get_comments self k sv tr)
  = (response <- fst (_make_request self
                        (jira_instance self ++ lit "/rest/api/2/issue/"
                           ++ py_str k ++ lit "/comment") None sv tr) ;;
     found <- py_get response (lit "comments") (JArr []) ;;
     items <- py_iter found ;;
     mapM comment_of items).
Proof.
  intros IC. unfold _get_comments. rewrite IC. cbn [negb bind M_monad result_monad].
  destruct (_make_request self _ None sv tr) as [[response|e] tr1]; reflexivity.
Qed.

(** X9. When the request for a ticket's comments is answered with a list,
    [_get_comments] returns one comment per item, in the order of the
    service, each holding the item's [created] and [body] ([None] when
    missing) and the author's display name (["Unknown"] when the item has
    no author, or the author no display name). It returns them exactly
    when every item is an object whose author, if any, is an object. *)
Theorem comments_in_service_order (self : Config) (k : json) sv tr v l :
  include_comments self = true ->
  fst (_make_request self
         (jira_instance self ++ lit "/rest/api/2/issue/" ++ py_str k ++ lit "/comment")
         None sv tr) = Ok v ->
  py_get v (lit "comments") (JArr []) = Ok (JArr l) ->
  ((exists cs, fst (_get_comments self k sv tr) = Ok cs)
   <-> forallb comment_shaped l = true)
  /\ (forall cs, fst (_get_comments self k sv tr) = Ok cs ->
                 length cs = length l /\ Forall2 flattened l cs).
Proof.
  intros IC R G. rewrite (get_comments_run self k sv tr IC), R.
  cbn [bind result_monad]. rewrite G. cbn [py_iter]. split.
  - rewrite mapM_result_ok, forallb_forall. split.
    + intros H x I. now apply comment_of_shaped, H.
    + intros H x I. now apply comment_of_shaped, H.
  - intros cs H. apply mapM_result_Forall2 in H. split.
    + symmetry. exact (Forall2_length H).
    + eapply Forall2_impl; [|exact H]. intros a b. apply comment_of_flattened.
Qed.

(** *** The key tool, end to end *)

Lemma strip_idempotent s : strip (strip s) = strip s.
Proof. destruct (strip_edges s) as [E1 E2]. now apply strip_fixed. Qed.

Lemma requests_of_sent tr r : requests_of (tr ++ [Sent r]) = requests_of tr ++ [r].
Proof. now rewrite requests_of_app. Qed.

Lemma requests_of_warning tr message : requests_of (tr ++ [Warning message]) = requests_of tr.
Proof. rewrite requests_of_app. cbn. now rewrite app_nil_r. Qed.

(** X10. The key tool on a ticket that does not exist: when the direct
    lookup is answered with 404 and the fallback search with an empty list
    of issues, the tool returns ["No tickets found."]; it has sent the
    lookup, logged the failure with the status and the text of the answer,
    and sent one search for [key = "<cleaned key>"]. *)
Theorem key_tool_not_found (self : Config) (input : pystr) sv tr r1 r2 m :
  let key := upper unicode_upper (strip input) in
  let lookup := lookup_request self key in
  let search := search_request self (lit "key = " ++ dquote ++ key ++ dquote) in
  sv (requests_of tr) lookup = Ok r1 ->
  status_code r1 = 404%Z ->
  sv (requests_of tr ++ [lookup]) search = Ok r2 ->
  status_code r2 = 200%Z ->
  body r2 = Parsed (JObj m) ->
  entry_or m (lit "issues") (JArr []) = JArr [] ->
  tool_func self _search_by_key input sv tr
  = (Ok (lit "No tickets found."),
     tr ++ [Sent lookup;
            Warning (lit "Direct ticket lookup failed: Jira API request failed: 404 - "
                       ++ text r1);
            Sent search]).
Proof.
  intros key lookup search H1 H404 H2 H200 Hb Hi.
  unfold tool_func. cbn [bind M_monad]. rewrite search_by_key_run, strip_idempotent.
  fold key. unfold direct_lookup. cbn [bind M_monad]. rewrite make_request_run.
  fold (lookup_request self key). fold lookup. rewrite H1, H404.
  cbn [Z.eqb Pos.eqb negb]. unfold _search_by_jql. cbn [bind M_monad].
  rewrite make_request_run. fold (search_request self (lit "key = " ++ dquote ++ key ++ dquote)).
  fold search. rewrite requests_of_warning, requests_of_sent, H2, H200.
  cbn [Z.eqb Pos.eqb negb]. unfold response_json. rewrite Hb. unfold lift at 1.
  rewrite py_get_dict, Hi. unfold _process_search_results.
  cbn [bind M_monad lift py_iter mapM ret]. cbn [exn_str].
  rewrite <- !app_assoc. reflexivity.
Qed.

(** X11. The key search on a ticket that exists: when the direct lookup
    is answered with a record and its normalization succeeds, the result is
    that one ticket; the lookup and the requested enrichments are all the
    requests made, and no search call is among them. *)
Theorem key_search_direct_hit (self : Config) (s : pystr) sv tr r v t tr2 :
  let key := upper unicode_upper (strip s) in
  sv (requests_of tr) (lookup_request self key) = Ok r ->
  status_code r = 200%Z ->
  body r = Parsed v ->
  _process_ticket self v sv (tr ++ [Sent (lookup_request self key)]) = (Ok t, tr2) ->
  _search_by_key self s sv tr = (Ok [t], tr2)
  /\ sent tr2 = sent tr + 1 + enrichment_calls self
  /\ searches tr2 = searches tr.
Proof.
  intros key Hsv H200 Hb Hp.
  assert (Run : _search_by_key self s sv tr = (Ok [t], tr2)).
  { rewrite search_by_key_run. fold key. unfold direct_lookup. cbn [bind M_monad].
    rewrite make_request_run. fold (lookup_request self key).
    rewrite Hsv, H200. cbn [Z.eqb Pos.eqb negb]. unfold response_json. rewrite Hb.
    rewrite Hp. reflexivity. }
  split; [exact Run|]. split.
  - destruct (process_ticket_sent self v sv (tr ++ [Sent (lookup_request self key)]))
      as [_ One].
    rewrite (One _ _ Hp), sent_app, sent_one. lia.
  - destruct (quiet_process_ticket self v sv (tr ++ [Sent (lookup_request self key)]))
      as [evs [E S]].
    rewrite Hp in E. cbn [snd] in E. subst tr2.
    rewrite !searches_app, S. cbn. now rewrite !app_nil_r.
Qed.

(** *** Attachments in the order of the service *)

Lemma attachment_of_dict item :
  (exists a, attachment_of item = Ok a) <-> is_dict item = true.
Proof.
  unfold attachment_of. cbn [bind ret result_monad].
  destruct item as [| | | | | |m]; try (split; [intros [c H]|]; discriminate).
  rewrite !py_get_dict. split; eauto.
Qed.

Lemma attachment_of_listed item a : attachment_of item = Ok a -> listed item a.
Proof.
  unfold attachment_of, listed. cbn [bind ret result_monad].
  destruct item as [| | | | | |m]; try discriminate.
  rewrite !py_get_dict. intros H. injection H as <-. exists m. cbn. repeat split.
Qed.

Lemma get_attachments_run (self : Config) k sv tr :
  include_attachments self = true ->
  fst (_get_attachments self k sv tr)
  = (response <- fst (_make_request self
                        (jira_instance self ++ lit "/rest/api/2/issue/" ++ py_str k)
                        None sv tr) ;;
     fields <- py_get response (lit "fields") (JObj []) ;;
     found <- py_get fields (lit "attachment") (JArr []) ;;
     items <- py_iter found ;;
     mapM attachment_of items).
Proof.
  intros IA. unfold _get_attachments. rewrite IA. cbn [negb bind M_monad result_monad].
  destruct (_make_request self _ None sv tr) as [[response|e] tr1]; reflexivity.
Qed.

(** X13. Attachments are read from a second fetch of the ticket itself:
    the request [_get_attachments] sends for a key is the request of the
    direct lookup of that key. When the answer lists attachments under
    [fields.attachment], one attachment per item is returned, in the order
    of the service, with the item's [filename], [size] and [created] and
    the item's [content] as its URL ([None] for what is missing), exactly
    when every item is an object. *)
Theorem attachments_in_service_order (self : Config) (k : pystr) sv tr v fields l :
  include_attachments self = true ->
  fst (_make_request self (jira_instance self ++ lit "/rest/api/2/issue/" ++ k)
         None sv tr) = Ok v ->
  py_get v (lit "fields") (JObj []) = Ok fields ->
  py_get fields (lit "attachment") (JArr []) = Ok (JArr l) ->
  snd (_get_attachments self (JStr k) sv tr) = tr ++ [Sent (lookup_request self k)]
  /\ ((exists ats, fst (_get_attachments self (JStr k) sv tr) = Ok ats)
      <-> forallb is_dict l = true)
  /\ (forall ats, fst (_get_attachments self (JStr k) sv tr) = Ok ats ->
                  length ats = length l /\ Forall2 listed l ats).
Proof.
  intros IA R F G. split.
  - unfold _get_attachments. rewrite IA. cbn [negb bind M_monad py_str].
    pose proof (make_request_snd self
                  (jira_instance self ++ lit "/rest/api/2/issue/" ++ k) None sv tr) as E.
    destruct (_make_request self _ None sv tr) as [[response|e] tr1];
      cbn [snd] in E; subst tr1; reflexivity.
  - rewrite (get_attachments_run self (JStr k) sv tr IA). cbn [py_str]. rewrite R.
    cbn [bind result_monad]. rewrite F. cbn [bind result_monad]. rewrite G.
    cbn [py_iter]. split.
    + rewrite mapM_result_ok, forallb_forall. split.
      * intros H x I. now apply attachment_of_dict, H.
      * intros H x I. now apply attachment_of_dict, H.
    + intros ats H. apply mapM_result_Forall2 in H. split.
      * symmetry. exact (Forall2_length H).
      * eapply Forall2_impl; [|exact H]. intros a b. apply attachment_of_listed.
Qed.

(** *** The text when comments are not requested *)

(** X14. With comments not requested the formatter never prints a comment,
    whatever the tickets carry, and never raises: the text of each ticket
    is its six header lines followed by its attachment block, if any, and
    the tickets are separated by an empty line. *)
Theorem format_without_comments (self : Config) (results : list Ticket) :
  include_comments self = false ->
  results <> [] ->
  _format_search_results self results
  = Ok (join (nl ++ nl)
          (map (fun t => join nl (header_lines t ++ attachment_lines self t)) results)).
Proof.
  intros IC NE.
  assert (One : forall t, format_ticket self t
                          = Ok (join nl (header_lines t ++ attachment_lines self t))).
  { intros t. unfold format_ticket, attachment_lines. rewrite IC.
    cbn [andb bind ret result_monad]. fold (header_lines t).
    destruct (include_attachments self && present (t_attachments t));
      now rewrite ?app_nil_r. }
  assert (All : mapM (format_ticket self) results
                = Ok (map (fun t => join nl (header_lines t ++ attachment_lines self t))
                        results)).
  { clear NE. induction results as [|t ts IH]; [reflexivity|].
    cbn [mapM map bind ret result_monad]. now rewrite One, IH. }
  destruct results as [|t ts]; [congruence|].
  unfold _format_search_results. cbn [bind ret result_monad]. now rewrite All.
Qed.

End Component.

(** ** Concrete runs *)

Lemma ascii_only_stable : upper_stable ascii_only.
Proof.
  intros c H. unfold upper, ascii_only. cbn [flat_map]. unfold upper_char.
  destruct (N.ltb_spec c 128); [lia|reflexivity].
Qed.

Lemma ascii_only_keeps_nonspace : upper_keeps_nonspace ascii_only.
Proof.
  intros c _ H. unfold ascii_only. split; [discriminate|]. now repeat constructor.
Qed.

(** On a 404 answer [_make_request] raises the error with 404 and the text. *)
Lemma make_request_contract_witness :
  search_only_server (requests_of [])
    (request_for demo (lit "https://jira.example.com/rest/api/2/issue/PROJ-123") None)
  = Ok not_found
  /\ fst (_make_request demo (lit "https://jira.example.com/rest/api/2/issue/PROJ-123")
            None search_only_server [])
     = Raise (Exn ValueError (lit "Jira API request failed: 404 - Issue does not exist")).
Proof.
  split; [reflexivity|].
  apply (proj1 (@make_request_contract demo
                  (lit "https://jira.example.com/rest/api/2/issue/PROJ-123")
                  None search_only_server [] not_found eq_refl)).
  discriminate.
Defined.

(** A 404 on the direct lookup of [proj-123]: one search call follows. *)
Lemma lookup_failure_falls_back_witness :
  fst (_make_request demo
         (jira_instance demo ++ lit "/rest/api/2/issue/"
            ++ upper ascii_only (strip (lit " proj-123 ")))
         None search_only_server [])
  = Raise (Exn ValueError (lit "Jira API request failed: 404 - Issue does not exist"))
  /\ searches (snd (_search_by_key ascii_only plain_repr demo (lit " proj-123 ")
                      search_only_server []))
     = [JStr (lit "key = " ++ dquote ++ lit "PROJ-123" ++ dquote)].
Proof.
  split; [reflexivity|].
  apply (@lookup_failure_falls_back ascii_only plain_repr demo (lit " proj-123 ")
           search_only_server []
           (Exn ValueError (lit "Jira API request failed: 404 - Issue does not exist"))).
  reflexivity.
Defined.

(** The failed comment request of the fetched ticket is answered by the
    fallback search, which here finds nothing. *)
Lemma fallback_on_any_direct_failure_witness :
  _get_comments plain_repr demo_with_comments (JStr (lit "PROJ-123")) flaky_server
    [Sent (lookup_request demo_with_comments (lit "PROJ-123"))]
  = (Raise (Exn ValueError (lit "Jira API request failed: 500 - Internal error")),
     [Sent (lookup_request demo_with_comments (lit "PROJ-123"));
      Sent (request_for demo_with_comments
              (lit "https://jira.example.com/rest/api/2/issue/PROJ-123/comment") None)])
  /\ fst (_search_by_key ascii_only plain_repr demo_with_comments (lit "proj-123")
            flaky_server [])
     = Ok [].
Proof.
  split; [reflexivity|].
  pose proof (@fallback_on_any_direct_failure ascii_only plain_repr
                demo_with_comments (lit "proj-123") flaky_server []) as F.
  cbv zeta in F. destruct F as (_ & _ & _ & F & _).
  specialize (F raw_proj_123).
  rewrite (F _ _ _ _ eq_refl eq_refl eq_refl eq_refl).
  reflexivity.
Defined.

(** The unassigned ticket [PROJ-123], normalized. *)
Lemma process_ticket_invariant_witness :
  exists t,
    _process_ticket plain_repr demo raw_proj_123 search_only_server [] = (Ok t, [])
    /\ t_url t = lit "https://jira.example.com/browse/PROJ-123"
    /\ t_assignee t = JStr (lit "Unassigned")
    /\ t_reporter t = JStr (lit "Unknown").
Proof.
  pose proof (@process_ticket_invariant plain_repr demo raw_proj_123
                search_only_server []) as [P T].
  destruct (T eq_refl eq_refl eq_refl) as [t Ht].
  destruct (P t [] Ht) as (K & _ & U & A & R).
  exists t. split; [exact Ht|]. split; [|split].
  - injection K as K. symmetry in K. exact (U _ K).
  - apply A. reflexivity.
  - apply R. reflexivity.
Defined.

(** A comment body of 50 characters is printed whole, with the dots. *)
Lemma comment_lines_end_in_ellipsis_witness :
  include_comments demo_with_comments = true
  /\ _format_search_results plain_repr slice_error demo_with_comments [commented_ticket]
     = Ok (join nl
             [lit "Key: PROJ-123";
              lit "Summary: Login fails";
              lit "Status: Open";
              lit "Assignee: Unassigned";
              lit "Reporter: Ann";
              lit "URL: https://jira.example.com/browse/PROJ-123";
              lit "Comments:";
              lit "  - Ann (2024-01-01): 01234567890123456789012345678901234567890123456789..."]).
Proof.
  split; [reflexivity|].
  assert (Text : forall t c, In t [commented_ticket] -> In c (items (t_comments t)) ->
                             is_text (c_body c) = true).
  { intros t c [<-|[]] [<-|[]]. reflexivity. }
  assert (NE : [commented_ticket] <> []) by discriminate.
  rewrite (proj1 (@comment_lines_end_in_ellipsis plain_repr slice_error
                    demo_with_comments [commented_ticket] eq_refl NE Text)).
  reflexivity.
Defined.

(** With the ASCII table the two lookups of [oapi-10686] agree. *)
Lemma specific_id_same_as_key_witness :
  upper_stable ascii_only
  /\ upper_keeps_nonspace ascii_only
  /\ _search_by_specific_id ascii_only plain_repr demo (lit " oapi-10686") search_only_server []
     = _search_by_key ascii_only plain_repr demo (lit " oapi-10686") search_only_server [].
Proof.
  split; [exact ascii_only_stable|]. split; [exact ascii_only_keeps_nonspace|].
  apply (@specific_id_same_as_key ascii_only plain_repr slice_error demo (lit " oapi-10686")
           search_only_server [] ascii_only_stable ascii_only_keeps_nonspace).
Defined.

(** The default configuration, search type [all], registers seven tools. *)
Lemma build_tool_registry_witness :
  search_type demo = lit "all"
  /\ length (build_tool ascii_only plain_repr slice_error demo) = 7.
Proof.
  split; [reflexivity|].
  apply (proj1 (@build_tool_registry ascii_only plain_repr slice_error demo) eq_refl).
Defined.

(** Two tickets with comments requested: three requests. *)
Lemma search_request_count_witness :
  exists ts tr',
    _search_by_jql plain_repr demo_with_comments (lit "project = PROJ")
      commenting_server [] = (Ok ts, tr')
    /\ length ts = 2
    /\ sent tr' = 3.
Proof.
  eexists. eexists. split; [reflexivity|]. split; [reflexivity|].
  rewrite (@search_request_count plain_repr demo_with_comments (lit "project = PROJ")
             commenting_server [] _ _ eq_refl).
  reflexivity.
Defined.

(** A ticket without priority is rejected. *)
Lemma malformed_record_is_rejected_witness :
  well_formed_ticket raw_null_priority = false
  /\ exists e,
       _process_ticket plain_repr demo_with_comments raw_null_priority ticket_server []
       = (Raise e, [])
       /\ exn_cls e = AttributeError.
Proof.
  split; [reflexivity|].
  apply (@malformed_record_is_rejected plain_repr demo_with_comments raw_null_priority
           ticket_server []).
  reflexivity.
Defined.

(** One malformed issue among two: the search raises. *)
Lemma search_has_no_partial_results_witness :
  In raw_null_priority [raw_proj_123; raw_null_priority]
  /\ exists e,
       fst (_search_by_jql plain_repr demo (lit "project = PROJ") mixed_server [])
       = Raise e.
Proof.
  split; [right; left; reflexivity|].
  apply (@search_has_no_partial_results plain_repr demo (lit "project = PROJ")
           mixed_server []
           (found (JObj [(lit "issues", JArr [raw_proj_123; raw_null_priority])]))
           (JObj [(lit "issues", JArr [raw_proj_123; raw_null_priority])])
           [raw_proj_123; raw_null_priority] raw_null_priority
           eq_refl eq_refl eq_refl eq_refl).
  - right; left; reflexivity.
  - reflexivity.
Defined.

(** An answer without [issues]: no ticket. *)
Lemma search_answer_shapes_witness :
  empty_server (requests_of []) (search_request demo (lit "project = PROJ"))
  = Ok (found (JObj []))
  /\ _search_by_jql plain_repr demo (lit "project = PROJ") empty_server []
     = (Ok [], [Sent (search_request demo (lit "project = PROJ"))]).
Proof.
  split; [reflexivity|].
  pose proof (@search_answer_shapes plain_repr demo (lit "project = PROJ")
                empty_server [] (found (JObj [])) (JObj [])
                eq_refl eq_refl eq_refl) as (_ & Missing & _).
  exact (Missing [] eq_refl eq_refl).
Defined.

(** Two spaces before and a line feed after the key. *)
Lemma tool_ignores_padding_witness :
  blank (lit "  ") /\ blank nl
  /\ strip (lit "  " ++ lit "PROJ-1" ++ nl) = strip (lit "PROJ-1").
Proof.
  assert (B1 : blank (lit "  ")) by (repeat constructor).
  assert (B2 : blank nl) by (repeat constructor).
  split; [exact B1|]. split; [exact B2|].
  apply (proj1 (@tool_ignores_padding plain_repr slice_error demo
                  (_search_by_key ascii_only plain_repr)
                  (lit "  ") (lit "PROJ-1") nl ticket_server [] B1 B2)).
Defined.

(** The unassigned ticket, normalized without enrichment. *)
Lemma processed_ticket_fields_witness :
  exists t,
    _process_ticket plain_repr demo raw_proj_123 ticket_server [] = (Ok t, [])
    /\ t_summary t = JStr (lit "Login fails")
    /\ t_description t = JNull
    /\ t_comments t = None.
Proof.
  eexists. split; [reflexivity|].
  pose proof (@processed_ticket_fields plain_repr demo raw_proj_123 ticket_server []
                _ _ eq_refl) as (C & _ & S & D & _).
  split; [exact S|]. split; [exact D|]. reflexivity.
Defined.

(** One comment with a body and no author. *)
Lemma comments_in_service_order_witness :
  forallb comment_shaped [JObj [(lit "body", JStr (lit "Works for me"))]] = true
  /\ exists cs,
       fst (_get_comments plain_repr demo_with_comments (JStr (lit "PROJ-123"))
              commenting_server [Sent (search_request demo_with_comments (lit "q"))])
       = Ok cs.
Proof.
  split; [reflexivity|].
  apply (proj1 (@comments_in_service_order plain_repr demo_with_comments
                  (JStr (lit "PROJ-123")) commenting_server
                  [Sent (search_request demo_with_comments (lit "q"))]
                  (JObj [(lit "comments",
                          JArr [JObj [(lit "body", JStr (lit "Works for me"))]])])
                  [JObj [(lit "body", JStr (lit "Works for me"))]]
                  eq_refl eq_refl eq_refl)).
  reflexivity.
Defined.

(** [proj-404] is not known and not found. *)
Lemma key_tool_not_found_witness :
  nothing_server (requests_of []) (lookup_request demo (lit "PROJ-404")) = Ok not_found
  /\ fst (tool_func plain_repr slice_error demo (_search_by_key ascii_only plain_repr)
            (lit " proj-404") nothing_server [])
     = Ok (lit "No tickets found.").
Proof.
  split; [reflexivity|].
  rewrite (@key_tool_not_found ascii_only plain_repr slice_error demo (lit " proj-404")
             nothing_server [] not_found
             (found (JObj [(lit "issues", JArr [])]))
             [(lit "issues", JArr [])]
             eq_refl eq_refl eq_refl eq_refl eq_refl eq_refl).
  reflexivity.
Defined.

(** [proj-123] is known: one ticket after one request. *)
Lemma key_search_direct_hit_witness :
  exists t tr2,
    _process_ticket plain_repr demo raw_proj_123 ticket_server
      [Sent (lookup_request demo (lit "PROJ-123"))] = (Ok t, tr2)
    /\ _search_by_key ascii_only plain_repr demo (lit "proj-123") ticket_server []
       = (Ok [t], tr2)
    /\ sent tr2 = 1.
Proof.
  eexists. eexists. split; [reflexivity|].
  pose proof (@key_search_direct_hit ascii_only plain_repr demo (lit "proj-123")
                ticket_server [] (found raw_proj_123) raw_proj_123 _ _
                eq_refl eq_refl eq_refl eq_refl) as (Run & Count & _).
  split; [exact Run|exact Count].
Defined.

(** One attachment, listed from the second fetch of the ticket. *)
Lemma attachments_in_service_order_witness :
  include_attachments demo_with_attachments = true
  /\ snd (_get_attachments plain_repr demo_with_attachments (JStr (lit "PROJ-123"))
            attachment_server [])
     = [Sent (lookup_request demo_with_attachments (lit "PROJ-123"))].
Proof.
  split; [reflexivity|].
  apply (proj1 (@attachments_in_service_order plain_repr demo_with_attachments
                  (lit "PROJ-123") attachment_server []
                  (JObj [(lit "key", JStr (lit "PROJ-123"));
                         (lit "fields",
                          JObj [(lit "attachment",
                                 JArr [JObj [(lit "filename", JStr (lit "log.txt"));
                                             (lit "size", JInt 120);
                                             (lit "content",
                                              JStr (lit "https://jira.example.com/files/1"))]])])])
                  (JObj [(lit "attachment",
                          JArr [JObj [(lit "filename", JStr (lit "log.txt"));
                                      (lit "size", JInt 120);
                                      (lit "content",
                                       JStr (lit "https://jira.example.com/files/1"))]])])
                  [JObj [(lit "filename", JStr (lit "log.txt"));
                         (lit "size", JInt 120);
                         (lit "content", JStr (lit "https://jira.example.com/files/1"))]]
                  eq_refl eq_refl eq_refl eq_refl)).
Defined.

(** The commented ticket, printed with comments not requested. *)
Lemma format_without_comments_witness :
  include_comments demo = false
  /\ _format_search_results plain_repr slice_error demo [commented_ticket]
     = Ok (join nl
             [lit "Key: PROJ-123";
              lit "Summary: Login fails";
              lit "Status: Open";
              lit "Assignee: Unassigned";
              lit "Reporter: Ann";
              lit "URL: https://jira.example.com/browse/PROJ-123"]).
Proof.
  split; [reflexivity|].
  assert (NE : [commented_ticket] <> []) by discriminate.
  rewrite (@format_without_comments plain_repr slice_error demo [commented_ticket]
             eq_refl NE).
  reflexivity.
Defined.
